(** * gcppubsub: the Pub/Sub wrapper of gcp_lib, embedded in Rocq

    The wrapper (package [gcppubsub]) is a thin layer over the client
    library [cloud.google.com/go/pubsub].  Every function of the wrapper is
    translated below as a program that issues calls to that library; the
    library itself is not part of the repository and stays a parameter: a
    [Library] gives each call its answer and its effect on the library's
    state.  The per-message callback that [Subscription.Receive] hands to
    the library is translated with Go's panic / defer / recover written
    out. *)

From Stdlib Require Import String List ZArith Bool Lia.
Import ListNotations.
Local Open Scope string_scope.
Local Open Scope Z_scope.
Local Open Scope list_scope.

(** ** Go values *)

Module Go.

(** [error] values the wrapper builds or passes on: [errors.New],
    [fmt.Errorf("<prefix>: %w", err)], and errors made by the library. *)
Inductive error : Type :=
| errors_New (text : string)
| fmt_Errorf_w (prefix : string) (wrapped : error)
| library_error (text : string).

(** A Go [error] interface value is [nil] or an error. *)
Definition is_nil {A : Type} (p : option A) : bool :=
  match p with None => true | Some _ => false end.

(** [time.Duration] is an int64 count of nanoseconds. *)
Definition Duration := Z.
Definition Second : Duration := 1000000000.
Definition Minute : Duration := 60 * Second.

(** [time.Time], as nanoseconds; the zero value is the zero [Time]. *)
Definition Time := Z.
Definition IsZero (t : Time) : bool := t =? 0.

(** The value carried by a panic that is unwinding, with the text [%v]
    prints for it and the stack [debug.Stack] reports while it unwinds.
    The module imports [log/slog], so it builds with Go 1.21 or later,
    where [panic(nil)] surfaces as a [*runtime.PanicNilError]: [recover]
    yields a non-nil value for every panic. *)
Record panic_value : Type := {
  panic_text : string;
  panic_stack : string
}.

(** What a Go call does: return a value or panic. *)
Inductive outcome (A : Type) : Type :=
| Returned (a : A)
| Panicked (v : panic_value).
Arguments Returned {A} a.
Arguments Panicked {A} v.

End Go.
Import Go.

(** ** The library's types, as far as the wrapper touches them *)

(** Pointers to the library's objects. *)
Variant pubsub_Client : Type := ClientPtr (addr : nat).
Variant pubsub_Topic : Type := TopicPtr (addr : nat).
Variant pubsub_Subscription : Type := SubscriptionPtr (addr : nat).
Variant pubsub_PublishResult : Type := PublishResultPtr (addr : nat).

Definition Attributes := list (string * string).

(** [pubsub.Message]: [DeliveryAttempt] is a [*int], nil when the broker
    sends none. *)
Record pubsub_Message : Type := {
  m_ID : string;
  m_Data : list Byte.byte;
  m_Attributes : Attributes;
  m_PublishTime : Time;
  m_DeliveryAttempt : option Z;
  m_OrderingKey : string
}.

Record pubsub_RetryPolicy : Type := {
  MinimumBackoff : Duration;
  MaximumBackoff : Duration
}.

(** [pubsub.SubscriptionConfig]; a field the wrapper never sets keeps its
    zero value. *)
Record pubsub_SubscriptionConfig : Type := {
  sc_Topic : option pubsub_Topic;
  sc_AckDeadline : Duration;
  sc_RetentionDuration : Duration;
  sc_RetryPolicy : option pubsub_RetryPolicy
}.

(** ** The wrapper's data *)

Definition ErrSubscriptionExists : error := errors_New "subscription already exists".
Definition ErrTopicNotFound : error := errors_New "topic not found".

Record Message : Type := {
  ID : string;
  Data : list Byte.byte;
  msg_Attributes : Attributes;
  PublishTime : Time;
  DeliveryAttempt : Z
}.

(** [type Handler func(ctx, msg *Message) error]: an invocation returns
    nil, returns an error, or panics. *)
Definition Handler := Message -> outcome (option error).

Record PubSubClient : Type := { client : option pubsub_Client }.
Record Topic : Type := { t : option pubsub_Topic }.
Record Subscription : Type := { s : option pubsub_Subscription }.

Record ReceiveConfig : Type := {
  Concurrency : Z;
  EnableMessageOrdering : bool;
  MaxOutstandingMessages : Z;
  MaxOutstandingBytes : Z
}.

Record SubscriptionConfig : Type := {
  cfg_Topic : option Topic;
  AckDeadline : Duration;
  MinBackoff : Duration;
  MaxBackoff : Duration;
  StartAtTime : Time
}.

(** ** The per-message callback: events, panics, defer and recover *)

Module Callback.

(** What one run of the callback does, in order. *)
Inductive event : Type :=
| HandlerCalled (msg : Message)
| Ack (m : pubsub_Message)
| Nack (m : pubsub_Message)
| Printf (text : string).

(** A computation inside the callback: the events so far and how it
    ended. *)
Definition Cb (A : Type) : Type := list event * outcome A.

Definition ret {A} (a : A) : Cb A := ([], Returned a).
Definition panic {A} (v : panic_value) : Cb A := ([], Panicked v).
Definition emit (e : event) : Cb unit := ([e], Returned tt).

Definition bind {A B} (c : Cb A) (k : A -> Cb B) : Cb B :=
  match c with
  | (es, Returned a) => let '(es', r) := k a in (es ++ es', r)
  | (es, Panicked v) => (es, Panicked v)
  end.

(** [defer func() { ... recover() ... }()] around [body]: the deferred
    function runs when [body] ends, and sees by [recover] the panic that
    is unwinding, if any.  Calling [recover] stops the panic, so the
    surrounding function returns normally unless the deferred function
    panics itself. *)
Definition defer_recover (deferred : option panic_value -> Cb unit)
                         (body : Cb unit) : Cb unit :=
  match body with
  | (es, Returned tt) => let '(es', r) := deferred None in (es ++ es', r)
  | (es, Panicked v) => let '(es', r) := deferred (Some v) in (es ++ es', r)
  end.

Definition events {A} (c : Cb A) : list event := fst c.
Definition result {A} (c : Cb A) : outcome A := snd c.

End Callback.
Import Callback.

Declare Scope cb_scope.
Notation "x <- c ;; k" := (Callback.bind c (fun x => k))
  (at level 61, c at next level, right associativity) : cb_scope.
Notation "c ;;; k" := (Callback.bind c (fun _ => k))
  (at level 61, right associativity) : cb_scope.
Delimit Scope cb_scope with cb.

(** ** Calls into the library *)

(** One constructor per library function (and clock read) the wrapper
    calls, indexed by the Go return values of the call. *)
Inductive pubsubE : Type -> Type :=
| pubsub_NewClient (projectID : string) : pubsubE (option pubsub_Client * option error)
| pubsub_Client_Close (c : pubsub_Client) : pubsubE (option error)
| pubsub_Client_Topic (c : pubsub_Client) (id : string) : pubsubE pubsub_Topic
| pubsub_Client_Subscription (c : pubsub_Client) (id : string) : pubsubE pubsub_Subscription
| pubsub_Client_CreateSubscription (c : pubsub_Client) (id : string)
    (cfg : pubsub_SubscriptionConfig) : pubsubE (option pubsub_Subscription * option error)
| pubsub_Topic_ID (tp : pubsub_Topic) : pubsubE string
| pubsub_Topic_Config (tp : pubsub_Topic) : pubsubE (unit * option error)
| pubsub_Topic_Publish (tp : pubsub_Topic) (data : list Byte.byte) (attrs : Attributes)
    (publishTime : Time) : pubsubE pubsub_PublishResult
| pubsub_PublishResult_Get (r : pubsub_PublishResult) : pubsubE (string * option error)
| pubsub_Topic_Stop (tp : pubsub_Topic) : pubsubE unit
| pubsub_Subscription_ID (sp : pubsub_Subscription) : pubsubE string
| pubsub_Subscription_Config (sp : pubsub_Subscription)
    : pubsubE (pubsub_SubscriptionConfig * option error)
| pubsub_Subscription_Exists (sp : pubsub_Subscription) : pubsubE (bool * option error)
| pubsub_Subscription_Delete (sp : pubsub_Subscription) : pubsubE (option error)
| pubsub_Set_Synchronous (sp : pubsub_Subscription) (v : bool) : pubsubE unit
| pubsub_Set_NumGoroutines (sp : pubsub_Subscription) (v : Z) : pubsubE unit
| pubsub_Set_MaxOutstandingMessages (sp : pubsub_Subscription) (v : Z) : pubsubE unit
| pubsub_Set_MaxOutstandingBytes (sp : pubsub_Subscription) (v : Z) : pubsubE unit
| pubsub_Subscription_Receive (sp : pubsub_Subscription)
    (f : pubsub_Message -> Cb unit) : pubsubE (option error)
| time_Now : pubsubE Time
| time_Since (start : Time) : pubsubE Duration.

(** A call with its return type packed, for traces. *)
Inductive call : Type :=
| Call {X : Type} (e : pubsubE X).

(** A wrapper function: it returns, panics, or calls the library and goes
    on with the answer. *)
Inductive Prog (A : Type) : Type :=
| Ret (a : A)
| Panic (v : panic_value)
| Vis {X : Type} (e : pubsubE X) (k : X -> Prog A).
Arguments Ret {A} a.
Arguments Panic {A} v.
Arguments Vis {A X} e k.

Fixpoint pbind {A B} (p : Prog A) (k : A -> Prog B) : Prog B :=
  match p with
  | Ret a => k a
  | Panic v => Panic v
  | Vis e h => Vis e (fun x => pbind (h x) k)
  end.

Definition trigger {X} (e : pubsubE X) : Prog X := Vis e Ret.

Declare Scope prog_scope.
Notation "x <- c ;; k" := (pbind c (fun x => k))
  (at level 61, c at next level, right associativity) : prog_scope.
Notation "' pat <- c ;; k" := (pbind c (fun x => match x with pat => k end))
  (at level 61, pat pattern, c at next level, right associativity) : prog_scope.
Notation "c ;;; k" := (pbind c (fun _ => k))
  (at level 61, right associativity) : prog_scope.
Delimit Scope prog_scope with prog.

(** The panic of a nil pointer dereference, raised in function [where_]. *)
Definition nil_dereference (where_ : string) : panic_value :=
  {| panic_text := "runtime error: invalid memory address or nil pointer dereference";
     panic_stack := where_ |}.

(** A method of the library called on a nil [*pubsub.Client] dereferences
    it. *)
Definition deref_client (where_ : string) (c : option pubsub_Client) : Prog pubsub_Client :=
  match c with
  | Some p => Ret p
  | None => Panic (nil_dereference where_)
  end.

(** The library: a state and, for each call, its answer and the state
    after it. *)
Record Library : Type := {
  LibState : Type;
  lib_call : forall X, pubsubE X -> LibState -> X * LibState
}.

(** Run a wrapper function against a library: how it ends, the library's
    state afterwards, and the calls it made, in order. *)
Fixpoint run {A} (L : Library) (p : Prog A) (st : LibState L)
  : outcome A * LibState L * list call :=
  match p with
  | Ret a => (Returned a, st, [])
  | Panic v => (Panicked v, st, [])
  | Vis e k =>
      let '(x, st1) := lib_call L _ e st in
      let '(r, st2, tr) := run L (k x) st1 in
      (r, st2, Call e :: tr)
  end.

Definition run_result {A} (L : Library) (p : Prog A) (st : LibState L) : outcome A :=
  fst (fst (run L p st)).
Definition run_state {A} (L : Library) (p : Prog A) (st : LibState L) : LibState L :=
  snd (fst (run L p st)).
Definition run_trace {A} (L : Library) (p : Prog A) (st : LibState L) : list call :=
  snd (run L p st).

(** ** The wrapper *)

Local Open Scope prog_scope.

(** [NewPubSubClient] *)
Definition NewPubSubClient (projectID : string) : Prog (option PubSubClient * option error) :=
  if String.eqb projectID "" then
    Ret (None, Some (errors_New "project ID cannot be empty"))
  else
    '(c, err) <- trigger (pubsub_NewClient projectID) ;;
    match err with
    | Some e => Ret (None, Some (fmt_Errorf_w "failed to create pubsub client" e))
    | None => Ret (Some {| client := c |}, None)
    end.

(** [PubSubClient.Close] *)
Definition PubSubClient_Close (c : PubSubClient) : Prog (option error) :=
  match client c with
  | None => Ret None
  | Some p => trigger (pubsub_Client_Close p)
  end.

(** [PubSubClient.Topic] *)
Definition PubSubClient_Topic (c : PubSubClient) (topicID : string) : Prog Topic :=
  if String.eqb topicID "" then
    Ret {| t := None |}
  else
    p <- deref_client "gcppubsub.PubSubClient.Topic" (client c) ;;
    tp <- trigger (pubsub_Client_Topic p topicID) ;;
    Ret {| t := Some tp |}.

(** [Topic.ID] *)
Definition Topic_ID (h : Topic) : Prog string :=
  match t h with
  | None => Ret ""%string
  | Some tp => trigger (pubsub_Topic_ID tp)
  end.

(** [Topic.Exists] *)
Definition Topic_Exists (h : Topic) : Prog (bool * option error) :=
  match t h with
  | None => Ret (false, None)
  | Some topic =>
      '(_, err) <- trigger (pubsub_Topic_Config topic) ;;
      Ret (is_nil err, err)
  end.

(** [Topic.Publish] *)
Definition Topic_Publish (h : Topic) (data : list Byte.byte) (attrs : Attributes)
  : Prog (string * option error) :=
  match t h with
  | None => Ret (""%string, Some (errors_New "invalid topic"))
  | Some tp =>
      now <- trigger time_Now ;;
      result <- trigger (pubsub_Topic_Publish tp data attrs now) ;;
      '(msgID, err) <- trigger (pubsub_PublishResult_Get result) ;;
      match err with
      | Some e => Ret (""%string, Some (fmt_Errorf_w "failed to publish message" e))
      | None => Ret (msgID, None)
      end
  end.

(** [Topic.Stop] *)
Definition Topic_Stop (h : Topic) : Prog unit :=
  match t h with
  | Some tp => trigger (pubsub_Topic_Stop tp)
  | None => Ret tt
  end.

(** [PubSubClient.Subscription] *)
Definition PubSubClient_Subscription (c : PubSubClient) (subID : string) : Prog Subscription :=
  if String.eqb subID "" then
    Ret {| s := None |}
  else
    p <- deref_client "gcppubsub.PubSubClient.Subscription" (client c) ;;
    sp <- trigger (pubsub_Client_Subscription p subID) ;;
    Ret {| s := Some sp |}.

(** [Subscription.ID] *)
Definition Subscription_ID (h : Subscription) : Prog string :=
  match s h with
  | None => Ret ""%string
  | Some sp => trigger (pubsub_Subscription_ID sp)
  end.

(** [Subscription.Exists] *)
Definition Subscription_Exists (h : Subscription) : Prog (bool * option error) :=
  match s h with
  | None => Ret (false, None)
  | Some sub =>
      '(_, err) <- trigger (pubsub_Subscription_Config sub) ;;
      Ret (is_nil err, err)
  end.

(** [Subscription.Delete] *)
Definition Subscription_Delete (h : Subscription) : Prog (option error) :=
  match s h with
  | None => Ret (Some (errors_New "invalid subscription"))
  | Some sp => trigger (pubsub_Subscription_Delete sp)
  end.

(** *** Receive *)

Definition newline : string := String (Ascii.ascii_of_nat 10) EmptyString.

(** [fmt.Printf("panic in message handler: %v\n%s\n", r, string(debug.Stack()))] *)
Definition panic_report (r : panic_value) : string :=
  ("panic in message handler: " ++ panic_text r ++ newline
     ++ panic_stack r ++ newline)%string.

(** [*m.DeliveryAttempt] *)
Definition deref_DeliveryAttempt (p : option Z) : Cb Z :=
  match p with
  | Some n => Callback.ret n
  | None => Callback.panic (nil_dereference "gcppubsub.Subscription.Receive.func1")
  end.

(** [handler(ctx, msg)] *)
Definition call_handler (handler : Handler) (msg : Message) : Cb (option error) :=
  ([HandlerCalled msg], handler msg).

(** The function literal [Receive] passes to the library's [Receive]. *)
Definition Receive_callback (handler : Handler) (m : pubsub_Message) : Cb unit :=
  defer_recover
    (fun r =>
       match r with
       | Some v => (emit (Printf (panic_report v)) ;;; emit (Nack m))%cb
       | None => Callback.ret tt
       end)
    (attempt <- deref_DeliveryAttempt (m_DeliveryAttempt m) ;;
     let msg := {| ID := m_ID m;
                   Data := m_Data m;
                   msg_Attributes := m_Attributes m;
                   PublishTime := m_PublishTime m;
                   DeliveryAttempt := attempt |} in
     err <- call_handler handler msg ;;
     match err with
     | Some _ => emit (Nack m)
     | None => emit (Ack m)
     end)%cb.

(** [&ReceiveConfig{}] *)
Definition ReceiveConfig_zero : ReceiveConfig :=
  {| Concurrency := 0; EnableMessageOrdering := false;
     MaxOutstandingMessages := 0; MaxOutstandingBytes := 0 |}.

Definition when (b : bool) (p : Prog unit) : Prog unit :=
  if b then p else Ret tt.

(** [Subscription.Receive] *)
Definition Subscription_Receive (h : Subscription) (handler : Handler)
                                (cfg : option ReceiveConfig) : Prog (option error) :=
  match s h with
  | None => Ret (Some (errors_New "invalid subscription"))
  | Some sub =>
      let cfg := match cfg with Some c => c | None => ReceiveConfig_zero end in
      trigger (pubsub_Set_Synchronous sub true) ;;;
      when (Concurrency cfg >? 0)
           (trigger (pubsub_Set_NumGoroutines sub (Concurrency cfg))) ;;;
      when (MaxOutstandingMessages cfg >? 0)
           (trigger (pubsub_Set_MaxOutstandingMessages sub (MaxOutstandingMessages cfg))) ;;;
      when (MaxOutstandingBytes cfg >? 0)
           (trigger (pubsub_Set_MaxOutstandingBytes sub (MaxOutstandingBytes cfg))) ;;;
      trigger (pubsub_Subscription_Receive sub (Receive_callback handler))
  end.

(** *** CreateSubscription *)

(** [topic == nil || topic.t == nil], for a [*Topic]. *)
Definition topic_pointer (topic : option Topic) : option pubsub_Topic :=
  match topic with
  | None => None
  | Some h => t h
  end.

Definition with_AckDeadline (d : Duration) (c : pubsub_SubscriptionConfig) :=
  {| sc_Topic := sc_Topic c; sc_AckDeadline := d;
     sc_RetentionDuration := sc_RetentionDuration c; sc_RetryPolicy := sc_RetryPolicy c |}.
Definition with_RetentionDuration (d : Duration) (c : pubsub_SubscriptionConfig) :=
  {| sc_Topic := sc_Topic c; sc_AckDeadline := sc_AckDeadline c;
     sc_RetentionDuration := d; sc_RetryPolicy := sc_RetryPolicy c |}.
Definition with_RetryPolicy (r : option pubsub_RetryPolicy) (c : pubsub_SubscriptionConfig) :=
  {| sc_Topic := sc_Topic c; sc_AckDeadline := sc_AckDeadline c;
     sc_RetentionDuration := sc_RetentionDuration c; sc_RetryPolicy := r |}.

(** The block that fills [subConfig] from the caller's [cfg]. *)
Definition configure (cfg : option SubscriptionConfig)
                     (subConfig : pubsub_SubscriptionConfig)
  : Prog pubsub_SubscriptionConfig :=
  match cfg with
  | None => Ret subConfig
  | Some cfg =>
      let subConfig :=
        if AckDeadline cfg >? 0 then with_AckDeadline (AckDeadline cfg) subConfig
        else subConfig in
      subConfig <-
        (if negb (IsZero (StartAtTime cfg)) then
           d <- trigger (time_Since (StartAtTime cfg)) ;;
           Ret (with_RetentionDuration d subConfig)
         else Ret subConfig) ;;
      if (MinBackoff cfg >? 0) || (MaxBackoff cfg >? 0) then
        let minBackoff := 10 * Second in
        let minBackoff := if MinBackoff cfg >? 0 then MinBackoff cfg else minBackoff in
        let maxBackoff := 10 * Minute in
        let maxBackoff := if MaxBackoff cfg >? 0 then MaxBackoff cfg else maxBackoff in
        Ret (with_RetryPolicy
               (Some {| MinimumBackoff := minBackoff; MaximumBackoff := maxBackoff |})
               subConfig)
      else Ret subConfig
  end.

(** [PubSubClient.CreateSubscription] *)
Definition PubSubClient_CreateSubscription (c : PubSubClient) (subID : string)
    (topic : option Topic) (cfg : option SubscriptionConfig)
  : Prog (option Subscription * option error) :=
  if String.eqb subID "" then
    Ret (None, Some (errors_New "subscription ID cannot be empty"))
  else
    match topic_pointer topic with
    | None => Ret (None, Some (errors_New "topic cannot be nil"))
    | Some tp =>
        p <- deref_client "gcppubsub.PubSubClient.CreateSubscription" (client c) ;;
        sub <- trigger (pubsub_Client_Subscription p subID) ;;
        '(exists_, err) <- trigger (pubsub_Subscription_Exists sub) ;;
        match err with
        | Some e =>
            Ret (None, Some (fmt_Errorf_w "failed to check subscription existence" e))
        | None =>
            if exists_ : bool then Ret (None, Some ErrSubscriptionExists)
            else
              let subConfig :=
                {| sc_Topic := Some tp; sc_AckDeadline := 0;
                   sc_RetentionDuration := 0; sc_RetryPolicy := None |} in
              subConfig <- configure cfg subConfig ;;
              '(s', err) <- trigger (pubsub_Client_CreateSubscription p subID subConfig) ;;
              match err with
              | Some e => Ret (None, Some (fmt_Errorf_w "failed to create subscription" e))
              | None => Ret (Some {| s := s' |}, None)
              end
        end
    end.

(** ** An in-memory library, for running the wrapper on concrete inputs *)

Module InMemory.

Record state : Type := {
  next : nat;                                   (* next free address *)
  names : list (nat * string);                  (* handle address -> identifier *)
  topics : list string;                         (* topics on the broker *)
  subscriptions : list (string * pubsub_SubscriptionConfig);
  closed : list nat;                            (* clients already closed *)
  clock : Time
}.

Definition name_of (a : nat) (st : state) : string :=
  match find (fun '(b, _) => Nat.eqb a b) (names st) with
  | Some (_, id) => id
  | None => ""
  end.

Definition lookup (id : string) (st : state) : option pubsub_SubscriptionConfig :=
  match find (fun '(n, _) => String.eqb id n) (subscriptions st) with
  | Some (_, cfg) => Some cfg
  | None => None
  end.

Definition has_topic (id : string) (st : state) : bool :=
  existsb (String.eqb id) (topics st).

Definition alloc (id : string) (st : state) : state :=
  {| next := S (next st); names := (next st, id) :: names st; topics := topics st;
     subscriptions := subscriptions st; closed := closed st; clock := clock st |}.

Definition add_subscription (id : string) (cfg : pubsub_SubscriptionConfig) (st : state) :=
  {| next := next st; names := names st; topics := topics st;
     subscriptions := (id, cfg) :: subscriptions st; closed := closed st;
     clock := clock st |}.

Definition remove_subscription (id : string) (st : state) :=
  {| next := next st; names := names st; topics := topics st;
     subscriptions := filter (fun '(n, _) => negb (String.eqb id n)) (subscriptions st);
     closed := closed st; clock := clock st |}.

Definition close (a : nat) (st : state) :=
  {| next := next st; names := names st; topics := topics st;
     subscriptions := subscriptions st; closed := a :: closed st; clock := clock st |}.

Definition not_found : error := library_error "rpc error: code = NotFound".
Definition already_exists : error := library_error "rpc error: code = AlreadyExists".
Definition closing : error := library_error "grpc: the client connection is closing".

Definition zero_config : pubsub_SubscriptionConfig :=
  {| sc_Topic := None; sc_AckDeadline := 0; sc_RetentionDuration := 0;
     sc_RetryPolicy := None |}.

Definition answer (X : Type) (e : pubsubE X) (st : state) : X * state :=
  match e in pubsubE X return X * state with
  | pubsub_NewClient _ => ((Some (ClientPtr (next st)), None), alloc "" st)
  | pubsub_Client_Close (ClientPtr a) =>
      (if existsb (Nat.eqb a) (closed st) then Some closing else None, close a st)
  | pubsub_Client_Topic _ id => (TopicPtr (next st), alloc id st)
  | pubsub_Client_Subscription _ id => (SubscriptionPtr (next st), alloc id st)
  | pubsub_Client_CreateSubscription _ id cfg =>
      match lookup id st with
      | Some _ => ((None, Some already_exists), st)
      | None => ((Some (SubscriptionPtr (next st)), None),
                 add_subscription id cfg (alloc id st))
      end
  | pubsub_Topic_ID (TopicPtr a) => (name_of a st, st)
  | pubsub_Topic_Config (TopicPtr a) =>
      ((tt, if has_topic (name_of a st) st then None else Some not_found), st)
  | pubsub_Topic_Publish _ _ _ _ => (PublishResultPtr (next st), alloc "" st)
  | pubsub_PublishResult_Get (PublishResultPtr a) => (("message-1", None), st)
  | pubsub_Topic_Stop _ => (tt, st)
  | pubsub_Subscription_ID (SubscriptionPtr a) => (name_of a st, st)
  | pubsub_Subscription_Config (SubscriptionPtr a) =>
      match lookup (name_of a st) st with
      | Some cfg => ((cfg, None), st)
      | None => ((zero_config, Some not_found), st)
      end
  | pubsub_Subscription_Exists (SubscriptionPtr a) =>
      ((match lookup (name_of a st) st with Some _ => true | None => false end, None), st)
  | pubsub_Subscription_Delete (SubscriptionPtr a) =>
      match lookup (name_of a st) st with
      | Some _ => (None, remove_subscription (name_of a st) st)
      | None => (Some not_found, st)
      end
  | pubsub_Set_Synchronous _ _ => (tt, st)
  | pubsub_Set_NumGoroutines _ _ => (tt, st)
  | pubsub_Set_MaxOutstandingMessages _ _ => (tt, st)
  | pubsub_Set_MaxOutstandingBytes _ _ => (tt, st)
  | pubsub_Subscription_Receive _ _ => (None, st)
  | time_Now => (clock st, st)
  | time_Since start => (clock st - start, st)
  end.

Definition library : Library := {| LibState := state; lib_call := answer |}.

(** A broker with topic "orders", a client at address 0 and a handle on
    the topic at address 1. *)
Definition orders_only : state :=
  {| next := 2; names := [(1%nat, "orders"); (0%nat, "")]; topics := ["orders"];
     subscriptions := []; closed := []; clock := 1700000000 * Second |}.

(** The same broker after subscription "orders-worker-1" was created. *)
Definition with_worker : state :=
  add_subscription "orders-worker-1"
    {| sc_Topic := Some (TopicPtr 1); sc_AckDeadline := 30 * Second;
       sc_RetentionDuration := 0;
       sc_RetryPolicy := Some {| MinimumBackoff := 10 * Second;
                                 MaximumBackoff := 10 * Minute |} |}
    orders_only.

Definition the_client : PubSubClient := {| client := Some (ClientPtr 0) |}.
Definition orders : Topic := {| t := Some (TopicPtr 1) |}.

End InMemory.

(** ** Vocabulary of the properties *)

(** The [Message] the callback builds for a delivery whose attempt count
    is present. *)
Definition delivered (m : pubsub_Message) (attempt : Z) : Message :=
  {| ID := m_ID m; Data := m_Data m; msg_Attributes := m_Attributes m;
     PublishTime := m_PublishTime m; DeliveryAttempt := attempt |}.

(** The acknowledgments and negative acknowledgments among some events. *)
Definition is_resolution (e : event) : bool :=
  match e with
  | Ack _ | Nack _ => true
  | HandlerCalled _ | Printf _ => false
  end.

Definition resolutions (es : list event) : list event := filter is_resolution es.

Definition is_handler_call (e : event) : bool :=
  match e with HandlerCalled _ => true | _ => false end.

Definition is_ack (e : event) : bool :=
  match e with Ack _ => true | _ => false end.

(** A receive loop that hands the messages to the callback one after the
    other; a panic that leaves the callback ends it. *)
Fixpoint deliver_each (f : pubsub_Message -> Cb unit) (ms : list pubsub_Message)
  : Cb unit :=
  match ms with
  | [] => Callback.ret tt
  | m :: rest => (f m ;;; deliver_each f rest)%cb
  end.

(** What the callback does with a delivery that carries no attempt count. *)
Definition nil_attempt_events (m : pubsub_Message) : list event :=
  [Printf (panic_report (nil_dereference "gcppubsub.Subscription.Receive.func1")); Nack m].

(** The configurations of the creation requests among some calls. *)
Definition creation_request (c : call) : list pubsub_SubscriptionConfig :=
  match c with
  | Call (pubsub_Client_CreateSubscription _ _ cfg) => [cfg]
  | Call _ => []
  end.

Definition creation_requests (tr : list call) : list pubsub_SubscriptionConfig :=
  flat_map creation_request tr.

(** The caller's configuration fields, zero for a nil configuration. *)
Definition AckDeadline_of (cfg : option SubscriptionConfig) : Duration :=
  match cfg with Some c => AckDeadline c | None => 0 end.
Definition MinBackoff_of (cfg : option SubscriptionConfig) : Duration :=
  match cfg with Some c => MinBackoff c | None => 0 end.
Definition MaxBackoff_of (cfg : option SubscriptionConfig) : Duration :=
  match cfg with Some c => MaxBackoff c | None => 0 end.

(** "Defaults are applied for any unset field": a request made from [cfg]
    carries 10 s, 10 s and 600 s where [cfg] leaves the field zero. *)
Definition defaults_applied (cfg : option SubscriptionConfig)
                            (req : pubsub_SubscriptionConfig) : Prop :=
  (AckDeadline_of cfg = 0 -> sc_AckDeadline req = 10 * Second) /\
  (MinBackoff_of cfg = 0 ->
     exists rp, sc_RetryPolicy req = Some rp /\ MinimumBackoff rp = 10 * Second) /\
  (MaxBackoff_of cfg = 0 ->
     exists rp, sc_RetryPolicy req = Some rp /\ MaximumBackoff rp = 600 * Second).

(** [Close] called [n] times in a row on the same client. *)
Fixpoint Close_times (c : PubSubClient) (n : nat) : Prog (list (option error)) :=
  match n with
  | O => Ret []
  | S n' =>
      err <- PubSubClient_Close c ;;
      errs <- Close_times c n' ;;
      Ret (err :: errs)
  end.

(** "Close is idempotent": once [Close] has run, a further [Close] makes no
    call, changes nothing and returns nil. *)
Definition Close_idempotent (L : Library) (st : LibState L) (c : PubSubClient) : Prop :=
  let st1 := run_state L (PubSubClient_Close c) st in
  run L (PubSubClient_Close c) st1 = (Returned None, st1, []).

(** [cfg] with its ordering flag set to [b]. *)
Definition with_EnableMessageOrdering (b : bool) (cfg : ReceiveConfig) : ReceiveConfig :=
  {| Concurrency := Concurrency cfg; EnableMessageOrdering := b;
     MaxOutstandingMessages := MaxOutstandingMessages cfg;
     MaxOutstandingBytes := MaxOutstandingBytes cfg |}.

(** Sample deliveries and handlers. *)
Module Sample.

Definition hello (attempt : option Z) : pubsub_Message :=
  {| m_ID := "1"; m_Data := [Byte.x68; Byte.x65; Byte.x6c; Byte.x6c; Byte.x6f];
     m_Attributes := [("key", "value")]; m_PublishTime := 1700000000 * Second;
     m_DeliveryAttempt := attempt; m_OrderingKey := "" |}.

Definition succeed : Handler := fun _ => Returned None.
Definition fail : Handler := fun _ => Returned (Some (errors_New "cannot process"))%string.
Definition crash : Handler :=
  fun _ => Panicked {| panic_text := "index out of range [3] with length 3";
                       panic_stack := "main.processMessage" |}.
(** Fails on the first attempt only. *)
Definition fail_once : Handler :=
  fun msg => if DeliveryAttempt msg <=? 1
             then Returned (Some (errors_New "try again"))
             else Returned None.

End Sample.

(** ** Errors: unwrapping *)

(** Equality of error values.  Errors are told apart by how they were built
    and by their text; a sentinel of a library ([context.Canceled]) is the
    library error with the sentinel's text. *)
Fixpoint error_eqb (a b : error) : bool :=
  match a, b with
  | errors_New x, errors_New y => String.eqb x y
  | library_error x, library_error y => String.eqb x y
  | fmt_Errorf_w p x, fmt_Errorf_w q y => String.eqb p q && error_eqb x y
  | _, _ => false
  end.

(** [errors.Unwrap]: only an error made with [%w] wraps another one. *)
Definition errors_Unwrap (e : error) : option error :=
  match e with
  | fmt_Errorf_w _ wrapped => Some wrapped
  | errors_New _ | library_error _ => None
  end.

(** [errors.Is]: [target] is [err] or is found down [err]'s chain. *)
Fixpoint errors_Is (err target : error) : bool :=
  error_eqb err target ||
  match err with
  | fmt_Errorf_w _ wrapped => errors_Is wrapped target
  | errors_New _ | library_error _ => false
  end.

Definition context_Canceled : error := library_error "context canceled".

(** ** Package common *)

Module common.

Definition ReturnStatus := Z.

Definition Success : ReturnStatus := 0.
Definition PlatformSpecific : ReturnStatus := 1.
Definition BasicGCPFailure : ReturnStatus := 2.
Definition BoilerPlateFailure : ReturnStatus := 3.
Definition FunctionalityFailure : ReturnStatus := 4.
Definition OtherFailure : ReturnStatus := 5.

(** [ReturnStatus.String] *)
Definition String_ (s : ReturnStatus) : string :=
  if s =? Success then "Success"
  else if s =? PlatformSpecific then "Platform / OS Specific like read / write failures"
  else if s =? BasicGCPFailure then "GCP Setup Failure"
  else if s =? BoilerPlateFailure then "Basic library failure"
  else if s =? FunctionalityFailure then "Functionality didn't work as expected"
  else if s =? OtherFailure then "Other failure"
  else "Return type undefined".

End common.

(** ** The library's iterators and the process's logger *)

Variant pubsub_SubscriptionIterator : Type := SubscriptionIteratorPtr (addr : nat).
Variant pubsub_TopicIterator : Type := TopicIteratorPtr (addr : nat).

(** What [it.Next()] returns, by the three cases its callers tell apart:
    an item with a nil error, [iterator.Done], any other error. *)
Inductive next_result (A : Type) : Type :=
| Item (x : A)
| Done
| Failed (e : error).
Arguments Item {A} x.
Arguments Done {A}.
Arguments Failed {A} e.

(** A value logged by [slog]. *)
Inductive slog_value : Type :=
| slog_string (v : string)
| slog_int (v : Z)
| slog_time (v : Time).

(** Calls of the listing functions and of package main, besides the calls
    above. *)
Inductive appE : Type -> Type :=
| Lib {X : Type} (e : pubsubE X) : appE X
| pubsub_Client_Subscriptions (c : pubsub_Client) : appE pubsub_SubscriptionIterator
| pubsub_SubscriptionIterator_Next (it : pubsub_SubscriptionIterator)
    : appE (next_result pubsub_Subscription)
| pubsub_Client_Topics (c : pubsub_Client) : appE pubsub_TopicIterator
| pubsub_TopicIterator_Next (it : pubsub_TopicIterator) : appE (next_result pubsub_Topic)
| slog_Info (msg : string) (args : list (string * slog_value)) : appE unit.

Inductive app_call_record : Type :=
| ACall {X : Type} (e : appE X).

Inductive App (A : Type) : Type :=
| ARet (a : A)
| APanic (v : panic_value)
| AVis {X : Type} (e : appE X) (k : X -> App A).
Arguments ARet {A} a.
Arguments APanic {A} v.
Arguments AVis {A X} e k.

Fixpoint abind {A B} (p : App A) (k : A -> App B) : App B :=
  match p with
  | ARet a => k a
  | APanic v => APanic v
  | AVis e h => AVis e (fun x => abind (h x) k)
  end.

Definition atrigger {X} (e : appE X) : App X := AVis e ARet.

(** A function of the wrapper, called from a function of this layer. *)
Fixpoint lift {A} (p : Prog A) : App A :=
  match p with
  | Ret a => ARet a
  | Panic v => APanic v
  | Vis e k => AVis (Lib e) (fun x => lift (k x))
  end.

(** [defer deferred()] at the head of [body]: [deferred] runs when [body]
    returns or panics; what [body] returned, or its panic, stands unless
    [deferred] panics. *)
Fixpoint finally {A} (body : App A) (deferred : App unit) : App A :=
  match body with
  | ARet a => abind deferred (fun _ => ARet a)
  | APanic v => abind deferred (fun _ => APanic v)
  | AVis e k => AVis e (fun x => finally (k x) deferred)
  end.

Declare Scope app_scope.
Notation "x <- c ;; k" := (abind c (fun x => k))
  (at level 61, c at next level, right associativity) : app_scope.
Notation "' pat <- c ;; k" := (abind c (fun x => match x with pat => k end))
  (at level 61, pat pattern, c at next level, right associativity) : app_scope.
Notation "c ;;; k" := (abind c (fun _ => k))
  (at level 61, right associativity) : app_scope.
Delimit Scope app_scope with app.

(** The library with its iterators, and the logger. *)
Record AppLibrary : Type := {
  AppState : Type;
  app_call : forall X, appE X -> AppState -> X * AppState
}.

(** The part of it the wrapper's functions above talk to. *)
Definition library_of (AL : AppLibrary) : Library :=
  {| LibState := AppState AL; lib_call := fun X e => app_call AL X (Lib e) |}.

Fixpoint run_app {A} (AL : AppLibrary) (p : App A) (st : AppState AL)
  : outcome A * AppState AL * list app_call_record :=
  match p with
  | ARet a => (Returned a, st, [])
  | APanic v => (Panicked v, st, [])
  | AVis e k =>
      let '(x, st1) := app_call AL _ e st in
      let '(r, st2, tr) := run_app AL (k x) st1 in
      (r, st2, ACall e :: tr)
  end.

Definition app_result {A} (AL : AppLibrary) (p : App A) (st : AppState AL) : outcome A :=
  fst (fst (run_app AL p st)).
Definition app_state {A} (AL : AppLibrary) (p : App A) (st : AppState AL) : AppState AL :=
  snd (fst (run_app AL p st)).
Definition app_trace {A} (AL : AppLibrary) (p : App A) (st : AppState AL)
  : list app_call_record :=
  snd (run_app AL p st).

Definition of_call (c : call) : app_call_record :=
  match c with Call e => ACall (Lib e) end.

(** ** The wrapper: listing *)

Local Open Scope app_scope.

Definition aderef_client (where_ : string) (c : option pubsub_Client) : App pubsub_Client :=
  lift (deref_client where_ c).

(** The [for] loop of [ListSubscriptions], run for at most [fuel] calls of
    [it.Next()]; [None] when the iterator has not ended by then. *)
Fixpoint ListSubscriptions_loop (fuel : nat) (it : pubsub_SubscriptionIterator)
    (subs : list string) : App (option (list string * option error)) :=
  match fuel with
  | O => ARet None
  | S fuel' =>
      r <- atrigger (pubsub_SubscriptionIterator_Next it) ;;
      match r with
      | Done => ARet (Some (subs, None))
      | Failed e => ARet (Some ([], Some (fmt_Errorf_w "failed to list subscriptions" e)))
      | Item sub =>
          id <- atrigger (Lib (pubsub_Subscription_ID sub)) ;;
          ListSubscriptions_loop fuel' it (subs ++ [id])
      end
  end.

(** [PubSubClient.ListSubscriptions] *)
Definition PubSubClient_ListSubscriptions (fuel : nat) (c : PubSubClient)
  : App (option (list string * option error)) :=
  p <- aderef_client "gcppubsub.PubSubClient.ListSubscriptions" (client c) ;;
  it <- atrigger (pubsub_Client_Subscriptions p) ;;
  ListSubscriptions_loop fuel it [].

(** The [for] loop of [ListTopics]. *)
Fixpoint ListTopics_loop (fuel : nat) (it : pubsub_TopicIterator)
    (topics : list string) : App (option (list string * option error)) :=
  match fuel with
  | O => ARet None
  | S fuel' =>
      r <- atrigger (pubsub_TopicIterator_Next it) ;;
      match r with
      | Done => ARet (Some (topics, None))
      | Failed e => ARet (Some ([], Some (fmt_Errorf_w "failed to list topics" e)))
      | Item topic =>
          id <- atrigger (Lib (pubsub_Topic_ID topic)) ;;
          ListTopics_loop fuel' it (topics ++ [id])
      end
  end.

(** [PubSubClient.ListTopics] *)
Definition PubSubClient_ListTopics (fuel : nat) (c : PubSubClient)
  : App (option (list string * option error)) :=
  p <- aderef_client "gcppubsub.PubSubClient.ListTopics" (client c) ;;
  it <- atrigger (pubsub_Client_Topics p) ;;
  ListTopics_loop fuel it [].

(** ** Package main *)

(** Contexts are handed through to the library and are not modelled:
    [context.WithCancel] and the deferred [cancel] make no call. *)

Module main.

Definition topicName : string := "orders".
Definition subscriptionName : string := "orders-worker-1".

(** The record [processMessage] logs, and what it returns. *)
Definition processMessage_logged (msg : Message)
  : (string * list (string * slog_value)) * outcome (option error) :=
  (("Received message",
    [("id", slog_string (ID msg));
     ("publish_time", slog_time (PublishTime msg));
     ("attempts", slog_int (DeliveryAttempt msg));
     ("data", slog_string (string_of_list_byte (Data msg)))]),
   Returned None).

(** [processMessage], as the handler [Receive] calls. *)
Definition processMessage : Handler := fun msg => snd (processMessage_logged msg).

Definition quote : string := String (Ascii.ascii_of_nat 34) EmptyString.

(** [fmt.Errorf("topic %q does not exist", topicName)] *)
Definition topic_does_not_exist : error :=
  errors_New ("topic " ++ quote ++ topicName ++ quote ++ " does not exist")%string.

(** The function from its first statement after [defer client.Close()]. *)
Definition testPubSubFunctions_body (c : PubSubClient) : App (option error) :=
  topic <- lift (PubSubClient_Topic c topicName) ;;
  '(exists_, err) <- lift (Topic_Exists topic) ;;
  match err with
  | Some e => ARet (Some (fmt_Errorf_w "failed to check topic existence" e))
  | None =>
      if negb exists_ then ARet (Some topic_does_not_exist)
      else
        '(sub, err) <-
          lift (PubSubClient_CreateSubscription c subscriptionName (Some topic)
                  (Some {| cfg_Topic := None;
                           AckDeadline := 30 * Second;
                           MinBackoff := 10 * Second;
                           MaxBackoff := 10 * Minute;
                           StartAtTime := 0 |})) ;;
        match err with
        | Some e => ARet (Some (fmt_Errorf_w "failed to create subscription" e))
        | None =>
            '(msgID, err) <-
              lift (Topic_Publish topic
                      [Byte.x68; Byte.x65; Byte.x6c; Byte.x6c; Byte.x6f]
                      [("key", "value")%string]) ;;
            match err with
            | Some e => ARet (Some (fmt_Errorf_w "failed to publish message" e))
            | None =>
                atrigger (slog_Info "Published message"
                            [("message_id", slog_string msgID)]) ;;;
                match sub with
                | None => APanic (nil_dereference "gcppubsub.Subscription.Receive")
                | Some sub =>
                    err <-
                      lift (Subscription_Receive sub processMessage
                              (Some {| Concurrency := 5;
                                       EnableMessageOrdering := false;
                                       MaxOutstandingMessages := 100;
                                       MaxOutstandingBytes := 0 |})) ;;
                    match err with
                    | Some e =>
                        if negb (errors_Is e context_Canceled)
                        then ARet (Some (fmt_Errorf_w "error receiving messages" e))
                        else ARet None
                    | None => ARet None
                    end
                end
            end
        end
  end.

(** [testPubSubFunctions] *)
Definition testPubSubFunctions (projectID : string) : App (option error) :=
  '(client_, err) <- lift (NewPubSubClient projectID) ;;
  match err with
  | Some e => ARet (Some (fmt_Errorf_w "failed to create Pub/Sub client" e))
  | None =>
      match client_ with
      | None => APanic (nil_dereference "gcppubsub.PubSubClient.Topic")
      | Some c =>
          finally (testPubSubFunctions_body c)
                  (lift (PubSubClient_Close c) ;;; ARet tt)
      end
  end.

End main.

Local Close Scope app_scope.

(** ** The in-memory library, with iterators and a log *)

Module InMemoryApp.

Definition record : Type := string * list (string * slog_value).

Record state : Type := {
  base : InMemory.state;
  (* iterator address -> what its next calls of Next return *)
  cursors : list (nat * list (next_result string));
  (* set when the broker drops the connection at the end of a listing *)
  outage : bool;
  logged : list record
}.

Definition unavailable : error := library_error "rpc error: code = Unavailable".

Definition with_base (b : InMemory.state) (st : state) : state :=
  {| base := b; cursors := cursors st; outage := outage st; logged := logged st |}.

Definition with_cursor (a : nat) (script : list (next_result string)) (st : state) : state :=
  {| base := base st;
     cursors := (a, script) :: filter (fun '(b, _) => negb (Nat.eqb a b)) (cursors st);
     outage := outage st; logged := logged st |}.

Definition script_of (a : nat) (st : state) : list (next_result string) :=
  match find (fun '(b, _) => Nat.eqb a b) (cursors st) with
  | Some (_, script) => script
  | None => []
  end.

(** A listing of [ids]: each of them, then the end or the outage. *)
Definition listing (ids : list string) (st : state) : list (next_result string) :=
  map Item ids ++ (if outage st then [Failed unavailable] else []).

Definition open_cursor (ids : list string) (st : state) : nat * state :=
  (InMemory.next (base st),
   with_cursor (InMemory.next (base st)) (listing ids st)
     (with_base (InMemory.alloc "" (base st)) st)).

(** [it.Next()] for the iterator at [a]; [mk] makes the pointer to an item. *)
Definition step {A} (mk : nat -> A) (a : nat) (st : state) : next_result A * state :=
  match script_of a st with
  | Item id :: rest =>
      (Item (mk (InMemory.next (base st))),
       with_cursor a rest (with_base (InMemory.alloc id (base st)) st))
  | Failed e :: rest => (Failed e, with_cursor a rest st)
  | Done :: _ | [] => (Done, st)
  end.

Definition answer (X : Type) (e : appE X) (st : state) : X * state :=
  match e in appE X return X * state with
  | Lib e' =>
      let '(x, b) := InMemory.answer _ e' (base st) in (x, with_base b st)
  | pubsub_Client_Subscriptions _ =>
      let '(a, st') := open_cursor (map fst (InMemory.subscriptions (base st))) st in
      (SubscriptionIteratorPtr a, st')
  | pubsub_SubscriptionIterator_Next (SubscriptionIteratorPtr a) => step SubscriptionPtr a st
  | pubsub_Client_Topics _ =>
      let '(a, st') := open_cursor (InMemory.topics (base st)) st in
      (TopicIteratorPtr a, st')
  | pubsub_TopicIterator_Next (TopicIteratorPtr a) => step TopicPtr a st
  | slog_Info msg args =>
      (tt, {| base := base st; cursors := cursors st; outage := outage st;
              logged := logged st ++ [(msg, args)] |})
  end.

Definition library : AppLibrary := {| AppState := state; app_call := answer |}.

Definition on (b : InMemory.state) : state :=
  {| base := b; cursors := []; outage := false; logged := [] |}.

Definition during_outage (b : InMemory.state) : state :=
  {| base := b; cursors := []; outage := true; logged := [] |}.

(** A broker with topics "orders" and "invoices" and two subscriptions. *)
Definition two_workers : InMemory.state :=
  InMemory.add_subscription "orders-worker-2" InMemory.zero_config
    {| InMemory.next := InMemory.next InMemory.with_worker;
       InMemory.names := InMemory.names InMemory.with_worker;
       InMemory.topics := ["orders"; "invoices"]%string;
       InMemory.subscriptions := InMemory.subscriptions InMemory.with_worker;
       InMemory.closed := [];
       InMemory.clock := InMemory.clock InMemory.with_worker |}.

End InMemoryApp.

(** ** A library that cannot reach the broker *)

Module Offline.

Definition unavailable : error := library_error "rpc error: code = Unavailable".

Definition zero_config : pubsub_SubscriptionConfig :=
  {| sc_Topic := None; sc_AckDeadline := 0; sc_RetentionDuration := 0;
     sc_RetryPolicy := None |}.

(** Handles are built locally; every call that needs the broker fails.  The
    state counts the calls made. *)
Definition answer (X : Type) (e : pubsubE X) (n : nat) : X * nat :=
  match e in pubsubE X return X * nat with
  | pubsub_NewClient _ => ((None, Some unavailable), S n)
  | pubsub_Client_Close _ => (None, S n)
  | pubsub_Client_Topic _ _ => (TopicPtr n, S n)
  | pubsub_Client_Subscription _ _ => (SubscriptionPtr n, S n)
  | pubsub_Client_CreateSubscription _ _ _ => ((None, Some unavailable), S n)
  | pubsub_Topic_ID _ => (""%string, S n)
  | pubsub_Topic_Config _ => ((tt, Some unavailable), S n)
  | pubsub_Topic_Publish _ _ _ _ => (PublishResultPtr n, S n)
  | pubsub_PublishResult_Get _ => ((""%string, Some unavailable), S n)
  | pubsub_Topic_Stop _ => (tt, S n)
  | pubsub_Subscription_ID _ => (""%string, S n)
  | pubsub_Subscription_Config _ => ((zero_config, Some unavailable), S n)
  | pubsub_Subscription_Exists _ => ((false, Some unavailable), S n)
  | pubsub_Subscription_Delete _ => (Some unavailable, S n)
  | pubsub_Set_Synchronous _ _ => (tt, S n)
  | pubsub_Set_NumGoroutines _ _ => (tt, S n)
  | pubsub_Set_MaxOutstandingMessages _ _ => (tt, S n)
  | pubsub_Set_MaxOutstandingBytes _ _ => (tt, S n)
  | pubsub_Subscription_Receive _ _ => (Some unavailable, S n)
  | time_Now => (0, S n)
  | time_Since start => (- start, S n)
  end.

Definition library : Library := {| LibState := nat; lib_call := answer |}.

End Offline.

(** ** A library on which another creator wins the race *)

Module Raced.

Definition already_exists : error := library_error "rpc error: code = AlreadyExists".

(** The existence check finds nothing, topics exist, and the creation
    request is answered "already exists"; the rest is as when offline. *)
Definition answer (X : Type) (e : pubsubE X) (n : nat) : X * nat :=
  match e in pubsubE X return X * nat with
  | pubsub_Subscription_Exists _ => ((false, None), S n)
  | pubsub_Topic_Config _ => ((tt, None), S n)
  | pubsub_NewClient _ => ((Some (ClientPtr n), None), S n)
  | pubsub_Client_CreateSubscription _ _ _ => ((None, Some already_exists), S n)
  | e' => Offline.answer _ e' n
  end.

Definition library : Library := {| LibState := nat; lib_call := answer |}.

End Raced.

(** ** Vocabulary of the further properties *)

(** The messages some events acknowledge or negatively acknowledge, in
    order. *)
Definition resolved (e : event) : list pubsub_Message :=
  match e with
  | Ack m | Nack m => [m]
  | HandlerCalled _ | Printf _ => []
  end.

Definition resolved_messages (es : list event) : list pubsub_Message :=
  flat_map resolved es.

(** A write of a receive setting is in order: [Synchronous] is set to true
    and a limit is set to a positive number. *)
Definition setting_ok (c : call) : bool :=
  match c with
  | Call (pubsub_Set_Synchronous _ v) => v
  | Call (pubsub_Set_NumGoroutines _ v) => 0 <? v
  | Call (pubsub_Set_MaxOutstandingMessages _ v) => 0 <? v
  | Call (pubsub_Set_MaxOutstandingBytes _ v) => 0 <? v
  | Call _ => true
  end.

Definition is_time_Since (c : call) : bool :=
  match c with
  | Call (time_Since _) => true
  | Call _ => false
  end.

(** From state [st] the iterator hands out subscriptions whose identifiers
    are [ids] and then ends, with [iterator.Done] ([None]) or with an
    error, in state [st']. *)
Inductive lists_subscriptions (AL : AppLibrary) (it : pubsub_SubscriptionIterator)
  : AppState AL -> list string -> option error -> AppState AL -> Prop :=
| lists_subscriptions_done st st' :
    app_call AL _ (pubsub_SubscriptionIterator_Next it) st = (Done, st') ->
    lists_subscriptions AL it st [] None st'
| lists_subscriptions_failed st st' e :
    app_call AL _ (pubsub_SubscriptionIterator_Next it) st = (Failed e, st') ->
    lists_subscriptions AL it st [] (Some e) st'
| lists_subscriptions_item st st1 st2 st' sub id ids ending :
    app_call AL _ (pubsub_SubscriptionIterator_Next it) st = (Item sub, st1) ->
    app_call AL _ (Lib (pubsub_Subscription_ID sub)) st1 = (id, st2) ->
    lists_subscriptions AL it st2 ids ending st' ->
    lists_subscriptions AL it st (id :: ids) ending st'.

Inductive lists_topics (AL : AppLibrary) (it : pubsub_TopicIterator)
  : AppState AL -> list string -> option error -> AppState AL -> Prop :=
| lists_topics_done st st' :
    app_call AL _ (pubsub_TopicIterator_Next it) st = (Done, st') ->
    lists_topics AL it st [] None st'
| lists_topics_failed st st' e :
    app_call AL _ (pubsub_TopicIterator_Next it) st = (Failed e, st') ->
    lists_topics AL it st [] (Some e) st'
| lists_topics_item st st1 st2 st' topic id ids ending :
    app_call AL _ (pubsub_TopicIterator_Next it) st = (Item topic, st1) ->
    app_call AL _ (Lib (pubsub_Topic_ID topic)) st1 = (id, st2) ->
    lists_topics AL it st2 ids ending st' ->
    lists_topics AL it st (id :: ids) ending st'.

(** Kinds of calls in a trace of package main. *)
Definition is_Close (c : app_call_record) : bool :=
  match c with
  | ACall (Lib (pubsub_Client_Close _)) => true
  | ACall _ => false
  end.

Definition is_Publish (c : app_call_record) : bool :=
  match c with
  | ACall (Lib (pubsub_Topic_Publish _ _ _ _)) => true
  | ACall _ => false
  end.

Definition is_Receive (c : app_call_record) : bool :=
  match c with
  | ACall (Lib (pubsub_Subscription_Receive _ _)) => true
  | ACall _ => false
  end.

(** No run of [p] makes a call that [P] picks out. *)
Inductive avoids {A : Type} (P : app_call_record -> bool) : App A -> Prop :=
| avoids_ret a : avoids P (ARet a)
| avoids_panic v : avoids P (APanic v)
| avoids_vis X (e : appE X) k :
    P (ACall e) = false -> (forall x, avoids P (k x)) -> avoids P (AVis e k).

(** Every value [p] can return satisfies [R]. *)
Inductive returns_only {A : Type} (R : A -> Prop) : App A -> Prop :=
| returns_only_ret a : R a -> returns_only R (ARet a)
| returns_only_panic v : returns_only R (APanic v)
| returns_only_vis X (e : appE X) k :
    (forall x, returns_only R (k x)) -> returns_only R (AVis e k).

(** What a listing returns for the way its iterator ended. *)
Definition listed (prefix : string) (ids : list string) (ending : option error)
  : list string * option error :=
  match ending with
  | None => (ids, None)
  | Some e => ([], Some (fmt_Errorf_w prefix e))
  end.

(** Every run of [p] returns, without a panic, a value that satisfies [R]. *)
Inductive completes {A : Type} (R : A -> Prop) : App A -> Prop :=
| completes_ret a : R a -> completes R (ARet a)
| completes_vis X (e : appE X) k :
    (forall x, completes R (k x)) -> completes R (AVis e k).

Inductive pcompletes {A : Type} (R : A -> Prop) : Prog A -> Prop :=
| pcompletes_ret a : R a -> pcompletes R (Ret a)
| pcompletes_vis X (e : pubsubE X) k :
    (forall x, pcompletes R (k x)) -> pcompletes R (Vis e k).

(** A broker that has no topic at all. *)
Definition no_topics : InMemory.state :=
  {| InMemory.next := 2; InMemory.names := [(1%nat, "orders"%string); (0%nat, ""%string)];
     InMemory.topics := []; InMemory.subscriptions := []; InMemory.closed := [];
     InMemory.clock := 1700000000 * Second |}.

(** No run of a function of the wrapper makes a call that [P] picks out. *)
Inductive pavoids {A : Type} (P : call -> bool) : Prog A -> Prop :=
| pavoids_ret a : pavoids P (Ret a)
| pavoids_panic v : pavoids P (Panic v)
| pavoids_vis X (e : pubsubE X) k :
    P (Call e) = false -> (forall x, pavoids P (k x)) -> pavoids P (Vis e k).

(** * Properties *)

(** ** The per-message callback *)

Section ReceiveCallback.

Variable handler : Handler.

(** Every run of the callback, whatever the message and the handler do,
    is one of four shapes. *)
Lemma Receive_callback_cases (m : pubsub_Message) :
  Receive_callback handler m =
    match m_DeliveryAttempt m with
    | None => (nil_attempt_events m, Returned tt)
    | Some attempt =>
        match handler (delivered m attempt) with
        | Returned None => ([HandlerCalled (delivered m attempt); Ack m], Returned tt)
        | Returned (Some _) => ([HandlerCalled (delivered m attempt); Nack m], Returned tt)
        | Panicked v =>
            ([HandlerCalled (delivered m attempt); Printf (panic_report v); Nack m],
             Returned tt)
        end
    end.
Proof.
  unfold Receive_callback, deref_DeliveryAttempt, call_handler, delivered.
  destruct (m_DeliveryAttempt m) as [attempt|]; cbn; [|reflexivity].
  destruct (handler _) as [[e|]|v]; reflexivity.
Qed.

Lemma Receive_callback_returns (m : pubsub_Message) :
  result (Receive_callback handler m) = Returned tt.
Proof.
  rewrite Receive_callback_cases.
  destruct (m_DeliveryAttempt m); [destruct (handler _) as [[?|]|?]|]; reflexivity.
Qed.

Lemma Receive_callback_resolves_once (m : pubsub_Message) :
  length (resolutions (events (Receive_callback handler m))) = 1%nat.
Proof.
  rewrite Receive_callback_cases.
  destruct (m_DeliveryAttempt m); [destruct (handler _) as [[?|]|?]|]; reflexivity.
Qed.

End ReceiveCallback.

Section Delivery.

Variable f : pubsub_Message -> Cb unit.
Hypothesis f_returns : forall m, result (f m) = Returned tt.

Lemma deliver_each_returns (ms : list pubsub_Message) :
  result (deliver_each f ms) = Returned tt.
Proof.
  induction ms as [|m ms IH]; [reflexivity|].
  cbn. pose proof (f_returns m) as Hm. destruct (f m) as [es r]. cbn in Hm. subst r.
  destruct (deliver_each f ms) as [es' r']. cbn in *. exact IH.
Qed.

Lemma deliver_each_cons (m : pubsub_Message) (ms : list pubsub_Message) :
  events (deliver_each f (m :: ms)) = events (f m) ++ events (deliver_each f ms).
Proof.
  cbn. pose proof (f_returns m) as Hm. destruct (f m) as [es r]. cbn in Hm. subst r.
  destruct (deliver_each f ms) as [es' r']. reflexivity.
Qed.

Lemma deliver_each_app (xs ys : list pubsub_Message) :
  events (deliver_each f (xs ++ ys)) =
    events (deliver_each f xs) ++ events (deliver_each f ys).
Proof.
  induction xs as [|x xs IH]; [reflexivity|].
  rewrite <- app_comm_cons, !deliver_each_cons, IH. now rewrite app_assoc.
Qed.

End Delivery.

(** ** Acknowledgment by handler outcome *)

(** For a message the callback hands to the handler, that is one that
    carries an attempt count: when the handler returns nil the callback calls
    Ack, when it returns an error the callback calls Nack, and the callback
    resolves the message by exactly one call of the two. *)
Theorem Receive_acks_or_nacks_by_handler_result
    (handler : Handler) (m : pubsub_Message) (attempt : Z) :
  m_DeliveryAttempt m = Some attempt ->
  (handler (delivered m attempt) = Returned None ->
     events (Receive_callback handler m) = [HandlerCalled (delivered m attempt); Ack m]) /\
  (forall e, handler (delivered m attempt) = Returned (Some e) ->
     events (Receive_callback handler m) = [HandlerCalled (delivered m attempt); Nack m]) /\
  length (resolutions (events (Receive_callback handler m))) = 1%nat.
Proof.
  intros Hattempt. rewrite Receive_callback_cases, Hattempt.
  repeat split.
  - intros ->. reflexivity.
  - intros e ->. reflexivity.
  - destruct (handler _) as [[?|]|?]; reflexivity.
Qed.

Lemma Receive_acks_or_nacks_by_handler_result_witness :
  events (Receive_callback Sample.succeed (Sample.hello (Some 1))) =
    [HandlerCalled (delivered (Sample.hello (Some 1)) 1); Ack (Sample.hello (Some 1))] /\
  events (Receive_callback Sample.fail_once (Sample.hello (Some 1))) =
    [HandlerCalled (delivered (Sample.hello (Some 1)) 1); Nack (Sample.hello (Some 1))] /\
  events (Receive_callback Sample.fail_once (Sample.hello (Some 2))) =
    [HandlerCalled (delivered (Sample.hello (Some 2)) 2); Ack (Sample.hello (Some 2))].
Proof.
  split; [|split].
  - apply (Receive_acks_or_nacks_by_handler_result
             Sample.succeed (Sample.hello (Some 1)) 1 eq_refl); reflexivity.
  - apply (proj1 (proj2 (Receive_acks_or_nacks_by_handler_result
             Sample.fail_once (Sample.hello (Some 1)) 1 eq_refl))
             (errors_New "try again")); reflexivity.
  - apply (Receive_acks_or_nacks_by_handler_result
             Sample.fail_once (Sample.hello (Some 2)) 2 eq_refl); reflexivity.
Defined.

(** C1. The callback does not resolve every delivery by the handler's
    result.  A delivery without an attempt count, handed to a handler that
    returns nil for every message, is negatively acknowledged: the callback
    panics on the dereference of the attempt count, the handler is not called
    and Ack is not called. *)
Lemma Receive_nacks_delivery_without_attempt_despite_succeeding_handler :
  (forall msg, Sample.succeed msg = Returned None) /\
  m_DeliveryAttempt (Sample.hello None) = None /\
  Receive_callback Sample.succeed (Sample.hello None) =
    ([Printf (panic_report (nil_dereference "gcppubsub.Subscription.Receive.func1"));
      Nack (Sample.hello None)], Returned tt) /\
  existsb is_handler_call (events (Receive_callback Sample.succeed (Sample.hello None)))
    = false /\
  resolutions (events (Receive_callback Sample.succeed (Sample.hello None)))
    = [Nack (Sample.hello None)].
Proof.
  split; [reflexivity|]. split; [reflexivity|]. split; [reflexivity|].
  split; reflexivity.
Qed.

(** ** Containment of handler panics *)

(** C2. When the handler panics, the callback recovers the panic, prints it
    with the stack of its origin, calls Nack and returns normally; a loop
    that delivers messages one after the other therefore goes on with the
    messages that follow. *)
Theorem Receive_recovers_handler_panic
    (handler : Handler) (m : pubsub_Message) (attempt : Z) (v : panic_value) :
  m_DeliveryAttempt m = Some attempt ->
  handler (delivered m attempt) = Panicked v ->
  Receive_callback handler m =
    ([HandlerCalled (delivered m attempt); Printf (panic_report v); Nack m], Returned tt) /\
  panic_report v =
    ("panic in message handler: " ++ panic_text v ++ newline ++ panic_stack v ++ newline)%string /\
  forall before after : list pubsub_Message,
    result (deliver_each (Receive_callback handler) (before ++ m :: after)) = Returned tt /\
    events (deliver_each (Receive_callback handler) (before ++ m :: after)) =
      events (deliver_each (Receive_callback handler) before)
      ++ [HandlerCalled (delivered m attempt); Printf (panic_report v); Nack m]
      ++ events (deliver_each (Receive_callback handler) after).
Proof.
  intros Hattempt Hpanic.
  assert (Hrun : Receive_callback handler m =
            ([HandlerCalled (delivered m attempt); Printf (panic_report v); Nack m],
             Returned tt)).
  { rewrite Receive_callback_cases, Hattempt, Hpanic. reflexivity. }
  split; [exact Hrun|]. split; [reflexivity|].
  intros before after. split.
  - apply deliver_each_returns, Receive_callback_returns.
  - rewrite deliver_each_app by apply Receive_callback_returns.
    rewrite deliver_each_cons by apply Receive_callback_returns.
    now rewrite Hrun.
Qed.

Lemma Receive_recovers_handler_panic_witness :
  Receive_callback Sample.crash (Sample.hello (Some 1)) =
    ([HandlerCalled (delivered (Sample.hello (Some 1)) 1);
      Printf (panic_report {| panic_text := "index out of range [3] with length 3";
                              panic_stack := "main.processMessage" |});
      Nack (Sample.hello (Some 1))], Returned tt).
Proof.
  apply (Receive_recovers_handler_panic Sample.crash (Sample.hello (Some 1)) 1
           {| panic_text := "index out of range [3] with length 3";
              panic_stack := "main.processMessage" |} eq_refl eq_refl).
Defined.

(** ** Deliveries without an attempt count *)

(** C9. For a message whose delivery-attempt pointer is nil the callback
    panics on the dereference before it reaches the handler; the deferred
    recover prints the panic and calls Nack.  The handler is not called, Ack
    is not called, and the same happens at every redelivery that again
    carries no attempt count. *)
Theorem Receive_nil_attempt_never_reaches_handler
    (handler : Handler) (m : pubsub_Message) :
  m_DeliveryAttempt m = None ->
  Receive_callback handler m = (nil_attempt_events m, Returned tt) /\
  existsb is_handler_call (events (Receive_callback handler m)) = false /\
  existsb is_ack (events (Receive_callback handler m)) = false /\
  resolutions (events (Receive_callback handler m)) = [Nack m] /\
  forall redeliveries : list pubsub_Message,
    Forall (fun m' => m_DeliveryAttempt m' = None) redeliveries ->
    events (deliver_each (Receive_callback handler) redeliveries) =
      flat_map nil_attempt_events redeliveries.
Proof.
  intros Hnil.
  assert (Hone : forall m', m_DeliveryAttempt m' = None ->
            Receive_callback handler m' = (nil_attempt_events m', Returned tt)).
  { intros m' H. rewrite Receive_callback_cases, H. reflexivity. }
  rewrite (Hone m Hnil). repeat split.
  intros redeliveries Hall. induction Hall as [|m' ms Hm' _ IH]; [reflexivity|].
  rewrite deliver_each_cons by apply Receive_callback_returns.
  rewrite IH, (Hone m' Hm'). reflexivity.
Qed.

Lemma Receive_nil_attempt_never_reaches_handler_witness :
  Receive_callback Sample.succeed (Sample.hello None) =
    (nil_attempt_events (Sample.hello None), Returned tt).
Proof.
  apply (Receive_nil_attempt_never_reaches_handler Sample.succeed (Sample.hello None) eq_refl).
Defined.

(** ** Running wrapper functions *)

Section Running.

Variable L : Library.

Lemma run_pbind {A B} (p : Prog A) (k : A -> Prog B) (st : LibState L) :
  run L (pbind p k) st =
    match run L p st with
    | (Returned a, st1, tr1) =>
        let '(r, st2, tr2) := run L (k a) st1 in (r, st2, tr1 ++ tr2)
    | (Panicked v, st1, tr1) => (Panicked v, st1, tr1)
    end.
Proof.
  revert st. induction p as [a|v|X e h IH]; intros st.
  - cbn. destruct (run L (k a) st) as [[r st2] tr2]. reflexivity.
  - reflexivity.
  - cbn. destruct (lib_call L X e st) as [x st1]. rewrite IH.
    destruct (run L (h x) st1) as [[[a|v] st2] tr1]; [|reflexivity].
    destruct (run L (k a) st2) as [[r st3] tr2]. reflexivity.
Qed.

Lemma run_trigger {X} (e : pubsubE X) (st : LibState L) :
  run L (trigger e) st =
    (Returned (fst (lib_call L X e st)), snd (lib_call L X e st), [Call e]).
Proof.
  cbn. destruct (lib_call L X e st). reflexivity.
Qed.

(** Filling the configuration reads the clock at most; it issues no
    creation request and never panics. *)
Lemma run_configure (cfg : option SubscriptionConfig)
      (subConfig : pubsub_SubscriptionConfig) (st : LibState L) :
  exists req st' tr,
    run L (configure cfg subConfig) st = (Returned req, st', tr) /\
    creation_requests tr = [] /\
    sc_Topic req = sc_Topic subConfig /\
    sc_AckDeadline req =
      (if AckDeadline_of cfg >? 0 then AckDeadline_of cfg else sc_AckDeadline subConfig) /\
    sc_RetryPolicy req =
      (if (MinBackoff_of cfg >? 0) || (MaxBackoff_of cfg >? 0) then
         Some {| MinimumBackoff :=
                   if MinBackoff_of cfg >? 0 then MinBackoff_of cfg else 10 * Second;
                 MaximumBackoff :=
                   if MaxBackoff_of cfg >? 0 then MaxBackoff_of cfg else 10 * Minute |}
       else sc_RetryPolicy subConfig).
Proof.
  destruct cfg as [cfg|]; cbn.
  - destruct (IsZero (StartAtTime cfg)); cbn.
    + destruct ((MinBackoff cfg >? 0) || (MaxBackoff cfg >? 0)) eqn:Hb;
        do 3 eexists; (split; [reflexivity|]);
        destruct (AckDeadline cfg >? 0); cbn; auto.
    + destruct (lib_call L _ (time_Since (StartAtTime cfg)) st) as [d st1].
      destruct ((MinBackoff cfg >? 0) || (MaxBackoff cfg >? 0)) eqn:Hb;
        do 3 eexists; (split; [reflexivity|]);
        destruct (AckDeadline cfg >? 0); cbn; auto.
  - do 3 eexists. split; [reflexivity|]. cbn. auto.
Qed.

End Running.

(** ** CreateSubscription *)

(** C4. When the library reports that a subscription with the identifier
    exists, CreateSubscription returns ErrSubscriptionExists after only
    building the handle and checking existence: it sends no creation request,
    and the library's state is the one those two lookups leave (unchanged
    when they change nothing). *)
Theorem CreateSubscription_existing_fails_without_creating
    (L : Library) (st st1 st2 : LibState L) (c : PubSubClient) (p : pubsub_Client)
    (subID : string) (topic : option Topic) (tp : pubsub_Topic)
    (cfg : option SubscriptionConfig) (sub : pubsub_Subscription) :
  subID <> ""%string ->
  topic_pointer topic = Some tp ->
  client c = Some p ->
  lib_call L _ (pubsub_Client_Subscription p subID) st = (sub, st1) ->
  lib_call L _ (pubsub_Subscription_Exists sub) st1 = ((true, None), st2) ->
  run L (PubSubClient_CreateSubscription c subID topic cfg) st =
    (Returned (None, Some ErrSubscriptionExists), st2,
     [Call (pubsub_Client_Subscription p subID); Call (pubsub_Subscription_Exists sub)]) /\
  creation_requests (run_trace L (PubSubClient_CreateSubscription c subID topic cfg) st) = [] /\
  (st1 = st -> st2 = st1 ->
   run_state L (PubSubClient_CreateSubscription c subID topic cfg) st = st).
Proof.
  intros HsubID Htopic Hclient Hhandle Hexists.
  assert (Hrun : run L (PubSubClient_CreateSubscription c subID topic cfg) st =
            (Returned (None, Some ErrSubscriptionExists), st2,
             [Call (pubsub_Client_Subscription p subID);
              Call (pubsub_Subscription_Exists sub)])).
  { unfold PubSubClient_CreateSubscription.
    apply String.eqb_neq in HsubID. rewrite HsubID, Htopic, Hclient.
    cbn. rewrite Hhandle. cbn. rewrite Hexists. reflexivity. }
  unfold run_trace, run_state. rewrite Hrun. cbn.
  repeat split. congruence.
Qed.

Lemma CreateSubscription_existing_fails_without_creating_witness :
  run InMemory.library
      (PubSubClient_CreateSubscription InMemory.the_client "orders-worker-1"
         (Some InMemory.orders) None)
      InMemory.with_worker =
    (Returned (None, Some ErrSubscriptionExists),
     InMemory.alloc "orders-worker-1" InMemory.with_worker,
     [Call (pubsub_Client_Subscription (ClientPtr 0) "orders-worker-1");
      Call (pubsub_Subscription_Exists (SubscriptionPtr 2))]).
Proof.
  apply (CreateSubscription_existing_fails_without_creating
           InMemory.library InMemory.with_worker
           (InMemory.alloc "orders-worker-1" InMemory.with_worker)
           (InMemory.alloc "orders-worker-1" InMemory.with_worker)
           InMemory.the_client (ClientPtr 0) "orders-worker-1"
           (Some InMemory.orders) (TopicPtr 1) None (SubscriptionPtr 2)).
  - discriminate.
  - reflexivity.
  - reflexivity.
  - reflexivity.
  - reflexivity.
Defined.

(** C3, as the code has it.  The request CreateSubscription sends carries
    the caller's acknowledgment deadline when it is positive and zero
    otherwise; it carries a retry policy only when one of the two backoffs is
    positive, and then the other one, if not positive, is 10 seconds (minimum)
    or 600 seconds (maximum).  With both backoffs unset, or a nil
    configuration, the request has no retry policy. *)
Theorem CreateSubscription_request_defaults
    (L : Library) (st st1 st2 : LibState L) (c : PubSubClient) (p : pubsub_Client)
    (subID : string) (topic : option Topic) (tp : pubsub_Topic)
    (cfg : option SubscriptionConfig) (sub : pubsub_Subscription) :
  subID <> ""%string ->
  topic_pointer topic = Some tp ->
  client c = Some p ->
  lib_call L _ (pubsub_Client_Subscription p subID) st = (sub, st1) ->
  lib_call L _ (pubsub_Subscription_Exists sub) st1 = ((false, None), st2) ->
  exists req,
    creation_requests (run_trace L (PubSubClient_CreateSubscription c subID topic cfg) st)
      = [req] /\
    sc_Topic req = Some tp /\
    (0 < AckDeadline_of cfg -> sc_AckDeadline req = AckDeadline_of cfg) /\
    (AckDeadline_of cfg <= 0 -> sc_AckDeadline req = 0) /\
    (MinBackoff_of cfg <= 0 -> MaxBackoff_of cfg <= 0 -> sc_RetryPolicy req = None) /\
    (0 < MinBackoff_of cfg -> MaxBackoff_of cfg <= 0 ->
       sc_RetryPolicy req = Some {| MinimumBackoff := MinBackoff_of cfg;
                                    MaximumBackoff := 600 * Second |}) /\
    (MinBackoff_of cfg <= 0 -> 0 < MaxBackoff_of cfg ->
       sc_RetryPolicy req = Some {| MinimumBackoff := 10 * Second;
                                    MaximumBackoff := MaxBackoff_of cfg |}) /\
    (0 < MinBackoff_of cfg -> 0 < MaxBackoff_of cfg ->
       sc_RetryPolicy req = Some {| MinimumBackoff := MinBackoff_of cfg;
                                    MaximumBackoff := MaxBackoff_of cfg |}).
Proof.
  intros HsubID Htopic Hclient Hhandle Hexists.
  destruct (run_configure L cfg
              {| sc_Topic := Some tp; sc_AckDeadline := 0;
                 sc_RetentionDuration := 0; sc_RetryPolicy := None |} st2)
    as (req & st3 & tr & Hcfg & Hnone & Htp & Hack & Hretry).
  exists req. split.
  - unfold run_trace, PubSubClient_CreateSubscription.
    apply String.eqb_neq in HsubID. rewrite HsubID, Htopic, Hclient.
    cbn. rewrite Hhandle. cbn. rewrite Hexists. cbn.
    rewrite run_pbind, Hcfg. cbn.
    destruct (lib_call L _ (pubsub_Client_CreateSubscription p subID req) st3)
      as [[s' [e|]] st4]; cbn;
      unfold creation_requests in *; rewrite flat_map_app, Hnone; reflexivity.
  - cbn in Htp, Hack, Hretry. rewrite Hack, Hretry. split; [exact Htp|].
    change (10 * Minute) with (600 * Second).
    destruct (Z.gtb_spec (AckDeadline_of cfg) 0),
             (Z.gtb_spec (MinBackoff_of cfg) 0),
             (Z.gtb_spec (MaxBackoff_of cfg) 0);
      cbn; repeat split; intros; solve [reflexivity | lia].
Qed.

Lemma CreateSubscription_request_defaults_witness :
  exists req,
    creation_requests
      (run_trace InMemory.library
         (PubSubClient_CreateSubscription InMemory.the_client "orders-worker-1"
            (Some InMemory.orders)
            (Some {| cfg_Topic := None; AckDeadline := 0; MinBackoff := 5 * Second;
                     MaxBackoff := 0; StartAtTime := 0 |}))
         InMemory.orders_only) = [req] /\
    sc_AckDeadline req = 0 /\
    sc_RetryPolicy req = Some {| MinimumBackoff := 5 * Second;
                                 MaximumBackoff := 600 * Second |}.
Proof.
  destruct (CreateSubscription_request_defaults
              InMemory.library InMemory.orders_only
              (InMemory.alloc "orders-worker-1" InMemory.orders_only)
              (InMemory.alloc "orders-worker-1" InMemory.orders_only)
              InMemory.the_client (ClientPtr 0) "orders-worker-1"
              (Some InMemory.orders) (TopicPtr 1)
              (Some {| cfg_Topic := None; AckDeadline := 0; MinBackoff := 5 * Second;
                       MaxBackoff := 0; StartAtTime := 0 |})
              (SubscriptionPtr 2)
              ltac:(discriminate) eq_refl eq_refl eq_refl eq_refl)
    as (req & Hreq & _ & _ & Hack & _ & Hmin & _).
  exists req. split; [exact Hreq|]. split.
  - apply Hack. cbn. lia.
  - apply Hmin; cbn; lia.
Defined.

(** C3 does not hold as stated: with a nil configuration the request
    carries a zero acknowledgment deadline and no retry policy. *)
Lemma CreateSubscription_nil_config_sends_no_defaults :
  exists req,
    creation_requests
      (run_trace InMemory.library
         (PubSubClient_CreateSubscription InMemory.the_client "orders-worker-1"
            (Some InMemory.orders) None)
         InMemory.orders_only) = [req] /\
    sc_AckDeadline req = 0 /\
    sc_RetryPolicy req = None /\
    ~ defaults_applied None req.
Proof.
  eexists. split; [reflexivity|]. cbn. repeat split.
  intros [Hack _]. specialize (Hack eq_refl). discriminate Hack.
Qed.

(** ** Close *)

(** C5, as the code has it.  Close on a client without a connection makes
    no call and returns nil.  On a client with a connection every Close, the
    first and each later one, calls the library's Close on that connection
    and returns what the library answers: [n] calls to Close make [n] calls
    to the library. *)
Theorem Close_delegates_on_every_call
    (L : Library) (c : PubSubClient) (st : LibState L) :
  match client c with
  | None => run L (PubSubClient_Close c) st = (Returned None, st, [])
  | Some p =>
      run L (PubSubClient_Close c) st =
        (Returned (fst (lib_call L _ (pubsub_Client_Close p) st)),
         snd (lib_call L _ (pubsub_Client_Close p) st),
         [Call (pubsub_Client_Close p)]) /\
      forall n, run_trace L (Close_times c n) st = repeat (Call (pubsub_Client_Close p)) n
  end.
Proof.
  destruct (client c) as [p|] eqn:Hclient.
  - assert (Hone : forall st', run L (PubSubClient_Close c) st' =
              (Returned (fst (lib_call L _ (pubsub_Client_Close p) st')),
               snd (lib_call L _ (pubsub_Client_Close p) st'),
               [Call (pubsub_Client_Close p)])).
    { intros st'. unfold PubSubClient_Close. rewrite Hclient. apply run_trigger. }
    split; [apply Hone|].
    intros n. revert st. induction n as [|n IH]; intros st; [reflexivity|].
    unfold run_trace in *. cbn [Close_times]. rewrite run_pbind, Hone.
    rewrite run_pbind. specialize (IH (snd (lib_call L _ (pubsub_Client_Close p) st))).
    destruct (run L (Close_times c n) _) as [[[errs|v] st'] tr]; cbn in *;
      rewrite ?app_nil_r; now rewrite IH.
  - unfold PubSubClient_Close. rewrite Hclient. reflexivity.
Qed.

(** C5 does not hold as stated: a second Close on a client with a
    connection calls the library again, and returns the library's error when
    the connection is already closed. *)
Lemma Close_twice_calls_library_twice :
  run_trace InMemory.library (Close_times InMemory.the_client 2) InMemory.orders_only =
    [Call (pubsub_Client_Close (ClientPtr 0)); Call (pubsub_Client_Close (ClientPtr 0))] /\
  run_result InMemory.library (Close_times InMemory.the_client 2) InMemory.orders_only =
    Returned [None; Some InMemory.closing] /\
  ~ Close_idempotent InMemory.library InMemory.orders_only InMemory.the_client.
Proof.
  split; [reflexivity|]. split; [reflexivity|].
  unfold Close_idempotent. cbn. intros H. discriminate H.
Qed.

(** ** Topic handles *)

(** C6. For every client, Topic with an empty identifier makes no call
    to the library and returns a handle without a topic; on that handle Exists
    returns (false, nil) and Publish returns the error "invalid topic", both
    without a call to the library. *)
Theorem Topic_empty_id_defers_validation
    (L : Library) (st : LibState L) (c : PubSubClient)
    (data : list Byte.byte) (attrs : Attributes) :
  run L (PubSubClient_Topic c "") st = (Returned {| t := None |}, st, []) /\
  run L (h <- PubSubClient_Topic c "" ;; Topic_Exists h) st =
    (Returned (false, None), st, []) /\
  run L (h <- PubSubClient_Topic c "" ;; Topic_Publish h data attrs) st =
    (Returned (""%string, Some (errors_New "invalid topic")), st, []).
Proof.
  split; [|split]; reflexivity.
Qed.

(** C10. On a handle with a topic, Exists makes one configuration lookup
    and returns (err == nil, err) for the lookup's error: never true with an
    error, false with the library's own error when the lookup fails, as it
    does for a topic that does not exist, and never (false, nil). *)
Theorem Topic_Exists_returns_lookup_error
    (L : Library) (st st1 : LibState L) (tp : pubsub_Topic)
    (cfg : unit) (err : option error) :
  lib_call L _ (pubsub_Topic_Config tp) st = ((cfg, err), st1) ->
  run L (Topic_Exists {| t := Some tp |}) st =
    (Returned (is_nil err, err), st1, [Call (pubsub_Topic_Config tp)]) /\
  (forall e, run_result L (Topic_Exists {| t := Some tp |}) st <> Returned (true, Some e)) /\
  (forall e, err = Some e ->
     run_result L (Topic_Exists {| t := Some tp |}) st = Returned (false, Some e)) /\
  run_result L (Topic_Exists {| t := Some tp |}) st <> Returned (false, None).
Proof.
  intros Hlookup.
  assert (Hrun : run L (Topic_Exists {| t := Some tp |}) st =
            (Returned (is_nil err, err), st1, [Call (pubsub_Topic_Config tp)])).
  { cbn. rewrite Hlookup. reflexivity. }
  unfold run_result. rewrite Hrun. cbn. split; [reflexivity|]. split; [|split].
  - intros e. destruct err; cbn; congruence.
  - intros e ->. reflexivity.
  - destruct err; cbn; congruence.
Qed.

Lemma Topic_Exists_returns_lookup_error_witness :
  run InMemory.library (Topic_Exists {| t := Some (TopicPtr 0) |}) InMemory.orders_only =
    (Returned (false, Some InMemory.not_found), InMemory.orders_only,
     [Call (pubsub_Topic_Config (TopicPtr 0))]).
Proof.
  apply (Topic_Exists_returns_lookup_error InMemory.library InMemory.orders_only
           InMemory.orders_only (TopicPtr 0) tt (Some InMemory.not_found) eq_refl).
Defined.

(** ** Receive and its configuration *)

(** Receive never reads the ordering flag: the program is the same
    whatever its value. *)
Lemma Receive_ignores_EnableMessageOrdering
    (h : Subscription) (handler : Handler) (cfg : ReceiveConfig) (b : bool) :
  Subscription_Receive h handler (Some (with_EnableMessageOrdering b cfg)) =
  Subscription_Receive h handler (Some cfg).
Proof.
  reflexivity.
Qed.

(** On a handle with a subscription, Receive writes the receive settings of
    the library's subscription object and then returns whatever the
    library's Receive returns; the wrapper holds no state of its own that
    records a running loop. *)
Lemma Receive_delegates (L : Library) (st : LibState L) (sub : pubsub_Subscription)
    (handler : Handler) (cfg : option ReceiveConfig) :
  exists st' tr,
    run L (Subscription_Receive {| s := Some sub |} handler cfg) st =
      (Returned (fst (lib_call L _ (pubsub_Subscription_Receive sub
                                      (Receive_callback handler)) st')),
       snd (lib_call L _ (pubsub_Subscription_Receive sub (Receive_callback handler)) st'),
       Call (pubsub_Set_Synchronous sub true) :: tr
         ++ [Call (pubsub_Subscription_Receive sub (Receive_callback handler))]).
Proof.
  unfold Subscription_Receive. cbn [s].
  set (c := match cfg with Some c => c | None => ReceiveConfig_zero end).
  cbn. destruct (lib_call L _ (pubsub_Set_Synchronous sub true) st) as [[] st0].
  rewrite run_pbind.
  assert (Hwhen : forall b p st, exists st' tr,
            run L (when b (trigger p)) st = (Returned tt, st', tr)).
  { intros [] p st3; cbn; [|eauto].
    destruct (lib_call L unit p st3) as [[] st4]. eauto. }
  destruct (Hwhen (Concurrency c >? 0)
              (pubsub_Set_NumGoroutines sub (Concurrency c)) st0) as (sa & ta & ->).
  rewrite run_pbind.
  destruct (Hwhen (MaxOutstandingMessages c >? 0)
              (pubsub_Set_MaxOutstandingMessages sub (MaxOutstandingMessages c)) sa)
    as (sb & tb & ->).
  rewrite run_pbind.
  destruct (Hwhen (MaxOutstandingBytes c >? 0)
              (pubsub_Set_MaxOutstandingBytes sub (MaxOutstandingBytes c)) sb)
    as (sc & tc & ->).
  rewrite run_trigger. exists sc, (ta ++ tb ++ tc). cbn.
  now rewrite <- !app_assoc.
Qed.

(** * Further properties of the code *)

(** ** Deliveries *)

Lemma Receive_callback_resolved (handler : Handler) (m : pubsub_Message) :
  resolved_messages (events (Receive_callback handler m)) = [m].
Proof.
  rewrite Receive_callback_cases.
  destruct (m_DeliveryAttempt m); [destruct (handler _) as [[?|]|?]|]; reflexivity.
Qed.

(** X1. The callback calls Ack on a message only for the message it was
    handed, and only when that message carries an attempt count and the
    handler returned nil for it. *)
Theorem Receive_acks_only_after_handler_success
    (handler : Handler) (m m' : pubsub_Message) :
  In (Ack m') (events (Receive_callback handler m)) <->
  m' = m /\
  exists attempt, m_DeliveryAttempt m = Some attempt /\
                  handler (delivered m attempt) = Returned None.
Proof.
  rewrite Receive_callback_cases.
  destruct (m_DeliveryAttempt m) as [attempt|] eqn:Hattempt.
  - destruct (handler (delivered m attempt)) as [[e|]|v] eqn:Hh; cbn; split.
    + intros [H|[H|[]]]; discriminate H.
    + intros [_ (a & Ha & Hnil)]. injection Ha as <-. congruence.
    + intros [H|[H|[]]]; [discriminate H|]. injection H as <-.
      split; [reflexivity|]. exists attempt. now split.
    + intros [-> _]. right. now left.
    + intros [H|[H|[H|[]]]]; discriminate H.
    + intros [_ (a & Ha & Hnil)]. injection Ha as <-. congruence.
  - cbn. split.
    + intros [H|[H|[]]]; discriminate H.
    + intros [_ (a & Ha & _)]. discriminate Ha.
Qed.

(** X2. A loop that hands deliveries to the callback one after the other
    never ends in a panic, and the messages it acknowledges or negatively
    acknowledges are exactly the deliveries, each once and in delivery
    order, whatever the handler does. *)
Theorem deliver_each_resolves_every_delivery_once
    (handler : Handler) (ms : list pubsub_Message) :
  result (deliver_each (Receive_callback handler) ms) = Returned tt /\
  resolved_messages (events (deliver_each (Receive_callback handler) ms)) = ms /\
  (length (filter is_handler_call (events (deliver_each (Receive_callback handler) ms)))
    <= length ms)%nat.
Proof.
  split; [apply deliver_each_returns, Receive_callback_returns|].
  induction ms as [|m ms [IHr IHc]]; [split; [reflexivity | cbn; lia]|].
  rewrite deliver_each_cons by apply Receive_callback_returns.
  unfold resolved_messages in *.
  rewrite flat_map_app, filter_app, length_app, IHr.
  fold (resolved_messages (events (Receive_callback handler m))).
  rewrite Receive_callback_resolved. split; [reflexivity|].
  assert (length (filter is_handler_call (events (Receive_callback handler m))) <= 1)%nat.
  { rewrite Receive_callback_cases.
    destruct (m_DeliveryAttempt m); [destruct (handler _) as [[?|]|?]|]; cbn; lia. }
  cbn [length]. lia.
Qed.

(** X3. With [processMessage] of package main as the handler, a delivery is
    acknowledged exactly when it carries an attempt count; a delivery
    without one is negatively acknowledged and never reaches
    [processMessage]. *)
Theorem processMessage_acks_every_delivery_with_attempt (m : pubsub_Message) :
  events (Receive_callback main.processMessage m) =
    match m_DeliveryAttempt m with
    | Some attempt => [HandlerCalled (delivered m attempt); Ack m]
    | None => nil_attempt_events m
    end.
Proof.
  rewrite Receive_callback_cases.
  destruct (m_DeliveryAttempt m); reflexivity.
Qed.

(** ** Receive settings *)

Ltac ask_library :=
  match goal with
  | |- context [lib_call ?L ?X ?e ?st] =>
      let x := fresh "x" in
      let st' := fresh "st" in
      destruct (lib_call L X e st) as [x st'] eqn:?
  end.

(** X4. On a handle with a subscription, Receive with a nil configuration,
    or with limits that are zero or negative, sets [Synchronous] and writes no
    other receive setting before it calls the library's Receive: the limits
    the subscription object already has stay. *)
Theorem Receive_nonpositive_config_writes_no_limit
    (L : Library) (st : LibState L) (sub : pubsub_Subscription)
    (handler : Handler) (cfg : option ReceiveConfig) :
  (forall c, cfg = Some c ->
     Concurrency c <= 0 /\ MaxOutstandingMessages c <= 0 /\ MaxOutstandingBytes c <= 0) ->
  run_trace L (Subscription_Receive {| s := Some sub |} handler cfg) st =
    [Call (pubsub_Set_Synchronous sub true);
     Call (pubsub_Subscription_Receive sub (Receive_callback handler))].
Proof.
  intros Hcfg. unfold run_trace, Subscription_Receive. cbn [s].
  assert (Hc : (Concurrency (match cfg with Some c => c | None => ReceiveConfig_zero end)
                  >? 0) = false /\
               (MaxOutstandingMessages
                  (match cfg with Some c => c | None => ReceiveConfig_zero end) >? 0) = false /\
               (MaxOutstandingBytes
                  (match cfg with Some c => c | None => ReceiveConfig_zero end) >? 0) = false).
  { destruct cfg as [c|]; [|repeat split].
    destruct (Hcfg c eq_refl) as (H1 & H2 & H3).
    repeat split; rewrite Z.gtb_ltb; apply Z.ltb_ge; lia. }
  destruct Hc as (-> & -> & ->). cbn.
  repeat ask_library. reflexivity.
Qed.

Lemma Receive_nonpositive_config_writes_no_limit_witness :
  run_trace InMemory.library
    (Subscription_Receive {| s := Some (SubscriptionPtr 2) |} Sample.succeed
       (Some {| Concurrency := -1; EnableMessageOrdering := true;
                MaxOutstandingMessages := 0; MaxOutstandingBytes := -5 |}))
    InMemory.with_worker =
    [Call (pubsub_Set_Synchronous (SubscriptionPtr 2) true);
     Call (pubsub_Subscription_Receive (SubscriptionPtr 2)
             (Receive_callback Sample.succeed))].
Proof.
  apply (Receive_nonpositive_config_writes_no_limit InMemory.library).
  intros c Hc. injection Hc as <-. cbn. lia.
Defined.

(** X5. Whatever the configuration, every receive setting Receive writes is
    [Synchronous = true] or a positive limit, and the run ends with the call
    of the library's Receive on the handle's subscription with the wrapper's
    callback around the handler. *)
Theorem Receive_writes_only_positive_limits
    (L : Library) (st : LibState L) (sub : pubsub_Subscription)
    (handler : Handler) (cfg : option ReceiveConfig) :
  forallb setting_ok
    (run_trace L (Subscription_Receive {| s := Some sub |} handler cfg) st) = true /\
  last (run_trace L (Subscription_Receive {| s := Some sub |} handler cfg) st)
       (Call time_Now) =
    Call (pubsub_Subscription_Receive sub (Receive_callback handler)).
Proof.
  unfold run_trace, Subscription_Receive. cbn [s].
  set (c := match cfg with Some c => c | None => ReceiveConfig_zero end).
  destruct (Z.gtb_spec (Concurrency c) 0) as [H1|H1];
    destruct (Z.gtb_spec (MaxOutstandingMessages c) 0) as [H2|H2];
    destruct (Z.gtb_spec (MaxOutstandingBytes c) 0) as [H3|H3];
    cbn; repeat ask_library; cbn;
    repeat match goal with
           | H : 0 < ?v |- context [0 <? ?v] =>
               rewrite (proj2 (Z.ltb_lt 0 v) H)
           end;
    split; reflexivity.
Qed.

(** ** Handles without an identifier *)

(** X6. For every client, Subscription with an empty identifier makes no
    call and returns a handle without a subscription; on that handle ID is
    empty, Exists is (false, nil), and Receive and Delete return the error
    "invalid subscription", all without a call to the library and without
    calling the handler. *)
Theorem Subscription_empty_id_defers_validation
    (L : Library) (st : LibState L) (c : PubSubClient)
    (handler : Handler) (cfg : option ReceiveConfig) :
  run L (PubSubClient_Subscription c "") st = (Returned {| s := None |}, st, []) /\
  run L (h <- PubSubClient_Subscription c "" ;; Subscription_ID h) st =
    (Returned ""%string, st, []) /\
  run L (h <- PubSubClient_Subscription c "" ;; Subscription_Exists h) st =
    (Returned (false, None), st, []) /\
  run L (h <- PubSubClient_Subscription c "" ;; Subscription_Receive h handler cfg) st =
    (Returned (Some (errors_New "invalid subscription")), st, []) /\
  run L (h <- PubSubClient_Subscription c "" ;; Subscription_Delete h) st =
    (Returned (Some (errors_New "invalid subscription")), st, []).
Proof.
  split; [|split; [|split; [|split]]]; reflexivity.
Qed.

(** X7. On a topic handle without a topic, as Topic returns for an empty
    identifier, ID is the empty string and Stop does nothing; neither calls
    the library. *)
Theorem Topic_empty_id_ID_and_Stop
    (L : Library) (st : LibState L) (c : PubSubClient) :
  run L (h <- PubSubClient_Topic c "" ;; Topic_ID h) st = (Returned ""%string, st, []) /\
  run L (h <- PubSubClient_Topic c "" ;; Topic_Stop h) st = (Returned tt, st, []).
Proof.
  split; reflexivity.
Qed.

(** ** Existence of a subscription *)

(** X8. On a handle with a subscription, Exists makes one configuration
    lookup and returns (err == nil, err): true with nil when the lookup
    succeeds, false with the library's own error when it fails, and never
    (false, nil). *)
Theorem Subscription_Exists_returns_lookup_error
    (L : Library) (st st1 : LibState L) (sub : pubsub_Subscription)
    (cfg : pubsub_SubscriptionConfig) (err : option error) :
  lib_call L _ (pubsub_Subscription_Config sub) st = ((cfg, err), st1) ->
  run L (Subscription_Exists {| s := Some sub |}) st =
    (Returned (is_nil err, err), st1, [Call (pubsub_Subscription_Config sub)]) /\
  (err = None -> run_result L (Subscription_Exists {| s := Some sub |}) st
                 = Returned (true, None)) /\
  (forall e, err = Some e ->
     run_result L (Subscription_Exists {| s := Some sub |}) st = Returned (false, Some e)) /\
  run_result L (Subscription_Exists {| s := Some sub |}) st <> Returned (false, None).
Proof.
  intros Hlookup.
  assert (Hrun : run L (Subscription_Exists {| s := Some sub |}) st =
            (Returned (is_nil err, err), st1, [Call (pubsub_Subscription_Config sub)])).
  { cbn. rewrite Hlookup. reflexivity. }
  unfold run_result. rewrite Hrun. cbn. split; [reflexivity|]. split; [|split].
  - intros ->. reflexivity.
  - intros e ->. reflexivity.
  - destruct err; cbn; congruence.
Qed.

Lemma Subscription_Exists_returns_lookup_error_witness :
  run InMemory.library (Subscription_Exists {| s := Some (SubscriptionPtr 1) |})
      InMemory.with_worker =
    (Returned (false, Some InMemory.not_found), InMemory.with_worker,
     [Call (pubsub_Subscription_Config (SubscriptionPtr 1))]).
Proof.
  apply (Subscription_Exists_returns_lookup_error InMemory.library InMemory.with_worker
           InMemory.with_worker (SubscriptionPtr 1) InMemory.zero_config
           (Some InMemory.not_found) eq_refl).
Defined.

(** ** Errors that wrap the library's error *)

Lemma error_eqb_refl (e : error) : error_eqb e e = true.
Proof.
  induction e as [x|p w IH|x]; cbn; rewrite ?String.eqb_refl, ?IH; reflexivity.
Qed.

Lemma errors_Is_refl (e : error) : errors_Is e e = true.
Proof.
  destruct e; cbn; rewrite ?error_eqb_refl, ?String.eqb_refl; reflexivity.
Qed.

Lemma errors_Is_wrapped (prefix : string) (e target : error) :
  errors_Is e target = true -> errors_Is (fmt_Errorf_w prefix e) target = true.
Proof.
  intros H. cbn. rewrite H. apply orb_true_r.
Qed.

(** ** Publish *)

(** X9. On a handle with a topic, Publish reads the clock, hands the
    library a message with the caller's data and attributes unchanged and
    that time as publish time, and waits for the result.  It returns the
    library's message identifier with a nil error, or an empty identifier
    with an error that wraps the library's. *)
Theorem Topic_Publish_passes_payload_and_wraps_error
    (L : Library) (st st1 st2 st3 : LibState L) (tp : pubsub_Topic)
    (data : list Byte.byte) (attrs : Attributes) (now : Time)
    (r : pubsub_PublishResult) (msgID : string) (err : option error) :
  lib_call L _ time_Now st = (now, st1) ->
  lib_call L _ (pubsub_Topic_Publish tp data attrs now) st1 = (r, st2) ->
  lib_call L _ (pubsub_PublishResult_Get r) st2 = ((msgID, err), st3) ->
  run_trace L (Topic_Publish {| t := Some tp |} data attrs) st =
    [Call time_Now; Call (pubsub_Topic_Publish tp data attrs now);
     Call (pubsub_PublishResult_Get r)] /\
  run_state L (Topic_Publish {| t := Some tp |} data attrs) st = st3 /\
  (err = None ->
     run_result L (Topic_Publish {| t := Some tp |} data attrs) st
       = Returned (msgID, None)) /\
  (forall e, err = Some e ->
     exists wrapped,
       run_result L (Topic_Publish {| t := Some tp |} data attrs) st
         = Returned (""%string, Some wrapped) /\
       errors_Unwrap wrapped = Some e /\ errors_Is wrapped e = true).
Proof.
  intros Hnow Hpublish Hget.
  unfold run_trace, run_state, run_result. cbn.
  rewrite Hnow. cbn. rewrite Hpublish. cbn. rewrite Hget.
  destruct err as [e|]; cbn; repeat split; try congruence.
  intros e' [= <-]. eexists. split; [reflexivity|]. split; [reflexivity|].
  apply errors_Is_wrapped, errors_Is_refl.
Qed.

Lemma Topic_Publish_passes_payload_and_wraps_error_witness :
  run_trace InMemory.library
    (Topic_Publish InMemory.orders [Byte.x68; Byte.x69] [("key", "value")%string])
    InMemory.orders_only =
    [Call time_Now;
     Call (pubsub_Topic_Publish (TopicPtr 1) [Byte.x68; Byte.x69]
             [("key", "value")%string] (1700000000 * Second));
     Call (pubsub_PublishResult_Get (PublishResultPtr 2))].
Proof.
  apply (Topic_Publish_passes_payload_and_wraps_error InMemory.library
           InMemory.orders_only InMemory.orders_only
           (InMemory.alloc "" InMemory.orders_only)
           (InMemory.alloc "" InMemory.orders_only)
           (TopicPtr 1) [Byte.x68; Byte.x69] [("key", "value")%string]
           (1700000000 * Second) (PublishResultPtr 2) "message-1" None
           eq_refl eq_refl eq_refl).
Defined.

(** ** NewPubSubClient *)

(** X10. NewPubSubClient never panics and returns exactly one of a client
    and an error.  With an empty project identifier it returns the error
    "project ID cannot be empty" without calling the library; otherwise it
    calls the library's NewClient once, and an error of that call comes back
    wrapped. *)
Theorem NewPubSubClient_returns_client_or_error
    (L : Library) (st : LibState L) (projectID : string) :
  (exists c err,
     run_result L (NewPubSubClient projectID) st = Returned (c, err) /\
     (c = None <-> err <> None)) /\
  (projectID = ""%string ->
     run L (NewPubSubClient projectID) st =
       (Returned (None, Some (errors_New "project ID cannot be empty")), st, [])) /\
  (projectID <> ""%string ->
     run_trace L (NewPubSubClient projectID) st = [Call (pubsub_NewClient projectID)] /\
     forall e, snd (fst (lib_call L _ (pubsub_NewClient projectID) st)) = Some e ->
       run_result L (NewPubSubClient projectID) st =
         Returned (None, Some (fmt_Errorf_w "failed to create pubsub client" e))).
Proof.
  unfold run_result, run_trace, NewPubSubClient.
  destruct (String.eqb_spec projectID "") as [->|Hne].
  - cbn. split; [|split].
    + do 2 eexists. split; [reflexivity|]. split; congruence.
    + reflexivity.
    + congruence.
  - cbn. destruct (lib_call L _ (pubsub_NewClient projectID) st) as [[c [e|]] st1]; cbn.
    + split; [|split].
      * do 2 eexists. split; [reflexivity|]. split; congruence.
      * congruence.
      * intros _. split; [reflexivity|]. now intros e' [= <-].
    + split; [|split].
      * do 2 eexists. split; [reflexivity|]. split; congruence.
      * congruence.
      * intros _. split; [reflexivity|]. discriminate.
Qed.

(** ** CreateSubscription: the other paths *)

Section Creating.

Variable L : Library.

(** What filling the configuration does with the clock and the retention. *)
Lemma run_configure_retention (cfg : option SubscriptionConfig)
      (subConfig : pubsub_SubscriptionConfig) (st : LibState L) :
  exists req st' tr,
    run L (configure cfg subConfig) st = (Returned req, st', tr) /\
    creation_requests tr = [] /\
    match cfg with
    | None => st' = st /\ tr = [] /\ req = subConfig
    | Some c =>
        if IsZero (StartAtTime c) then
          st' = st /\ tr = [] /\
          sc_RetentionDuration req = sc_RetentionDuration subConfig
        else
          st' = snd (lib_call L _ (time_Since (StartAtTime c)) st) /\
          tr = [Call (time_Since (StartAtTime c))] /\
          sc_RetentionDuration req = fst (lib_call L _ (time_Since (StartAtTime c)) st)
    end.
Proof.
  destruct cfg as [cfg|]; cbn.
  - destruct (IsZero (StartAtTime cfg)); cbn.
    + destruct ((MinBackoff cfg >? 0) || (MaxBackoff cfg >? 0));
        do 3 eexists; (split; [reflexivity|]);
        destruct (AckDeadline cfg >? 0); cbn; auto.
    + destruct (lib_call L _ (time_Since (StartAtTime cfg)) st) as [d st1].
      destruct ((MinBackoff cfg >? 0) || (MaxBackoff cfg >? 0));
        do 3 eexists; (split; [reflexivity|]);
        destruct (AckDeadline cfg >? 0); cbn; auto.
  - do 3 eexists. split; [reflexivity|]. cbn. auto.
Qed.

(** The run of CreateSubscription once the existence check has answered
    that there is no such subscription. *)
Lemma run_CreateSubscription_creating
    (st st1 st2 : LibState L) (c : PubSubClient) (p : pubsub_Client)
    (subID : string) (topic : option Topic) (tp : pubsub_Topic)
    (cfg : option SubscriptionConfig) (sub : pubsub_Subscription) :
  subID <> ""%string ->
  topic_pointer topic = Some tp ->
  client c = Some p ->
  lib_call L _ (pubsub_Client_Subscription p subID) st = (sub, st1) ->
  lib_call L _ (pubsub_Subscription_Exists sub) st1 = ((false, None), st2) ->
  exists req st3 tr,
    run L (configure cfg {| sc_Topic := Some tp; sc_AckDeadline := 0;
                            sc_RetentionDuration := 0; sc_RetryPolicy := None |}) st2
      = (Returned req, st3, tr) /\
    creation_requests tr = [] /\
    match cfg with
    | None => st3 = st2 /\ tr = [] /\ sc_RetentionDuration req = 0
    | Some c =>
        if IsZero (StartAtTime c) then
          st3 = st2 /\ tr = [] /\ sc_RetentionDuration req = 0
        else
          st3 = snd (lib_call L _ (time_Since (StartAtTime c)) st2) /\
          tr = [Call (time_Since (StartAtTime c))] /\
          sc_RetentionDuration req = fst (lib_call L _ (time_Since (StartAtTime c)) st2)
    end /\
    run L (PubSubClient_CreateSubscription c subID topic cfg) st =
      (Returned
         (match snd (fst (lib_call L _ (pubsub_Client_CreateSubscription p subID req) st3)) with
          | Some e => (None, Some (fmt_Errorf_w "failed to create subscription" e))
          | None =>
              (Some {| s := fst (fst (lib_call L _
                                        (pubsub_Client_CreateSubscription p subID req) st3)) |},
               None)
          end),
       snd (lib_call L _ (pubsub_Client_CreateSubscription p subID req) st3),
       [Call (pubsub_Client_Subscription p subID); Call (pubsub_Subscription_Exists sub)]
         ++ tr ++ [Call (pubsub_Client_CreateSubscription p subID req)]).
Proof.
  intros HsubID Htopic Hclient Hhandle Hexists.
  destruct (run_configure_retention cfg
              {| sc_Topic := Some tp; sc_AckDeadline := 0;
                 sc_RetentionDuration := 0; sc_RetryPolicy := None |} st2)
    as (req & st3 & tr & Hcfg & Hnone & Hretention).
  exists req, st3, tr. split; [exact Hcfg|]. split; [exact Hnone|]. split.
  { destruct cfg as [cfg|]; [exact Hretention|].
    destruct Hretention as (? & ? & ->). auto. }
  unfold PubSubClient_CreateSubscription.
  apply String.eqb_neq in HsubID. rewrite HsubID, Htopic, Hclient.
  cbn. rewrite Hhandle. cbn. rewrite Hexists. cbn.
  rewrite run_pbind, Hcfg. cbn.
  destruct (lib_call L _ (pubsub_Client_CreateSubscription p subID req) st3)
    as [[s' [e|]] st4]; reflexivity.
Qed.

End Creating.

Lemma run_CreateSubscription_empty_id
    (L : Library) (st : LibState L) (c : PubSubClient)
    (topic : option Topic) (cfg : option SubscriptionConfig) :
  run L (PubSubClient_CreateSubscription c "" topic cfg) st =
    (Returned (None, Some (errors_New "subscription ID cannot be empty")), st, []).
Proof.
  reflexivity.
Qed.

Lemma run_CreateSubscription_no_topic
    (L : Library) (st : LibState L) (c : PubSubClient) (subID : string)
    (topic : option Topic) (cfg : option SubscriptionConfig) :
  subID <> ""%string ->
  topic_pointer topic = None ->
  run L (PubSubClient_CreateSubscription c subID topic cfg) st =
    (Returned (None, Some (errors_New "topic cannot be nil")), st, []).
Proof.
  intros HsubID Htopic. unfold PubSubClient_CreateSubscription.
  apply String.eqb_neq in HsubID. rewrite HsubID, Htopic. reflexivity.
Qed.

(** X11. CreateSubscription checks its arguments before it touches the
    client: with an empty identifier, or with a nil topic or a topic handle
    without a topic, it returns an error without any call to the library and
    without a panic, even on a client that has no connection. *)
Theorem CreateSubscription_validates_before_any_call
    (L : Library) (st : LibState L) (c : PubSubClient) (subID : string)
    (topic : option Topic) (cfg : option SubscriptionConfig) :
  subID = ""%string \/ topic_pointer topic = None ->
  run L (PubSubClient_CreateSubscription c subID topic cfg) st =
    (Returned (None,
               Some (errors_New (if String.eqb subID ""
                                 then "subscription ID cannot be empty"
                                 else "topic cannot be nil"))),
     st, []).
Proof.
  intros Hinvalid. unfold PubSubClient_CreateSubscription.
  destruct (String.eqb subID "") eqn:HsubID; [reflexivity|].
  destruct Hinvalid as [-> | ->]; [discriminate HsubID | reflexivity].
Qed.

Lemma CreateSubscription_validates_before_any_call_witness :
  run InMemory.library
      (PubSubClient_CreateSubscription {| client := None |} "orders-worker-1"
         (Some {| t := None |}) None)
      InMemory.orders_only =
    (Returned (None, Some (errors_New "topic cannot be nil")), InMemory.orders_only, []).
Proof.
  apply (CreateSubscription_validates_before_any_call InMemory.library
           InMemory.orders_only {| client := None |} "orders-worker-1"
           (Some {| t := None |}) None).
  right. reflexivity.
Defined.

(** X12. When the existence check itself fails, CreateSubscription returns
    that error wrapped ("failed to check subscription existence"), whatever
    the boolean the check reports, and sends no creation request. *)
Theorem CreateSubscription_existence_check_error
    (L : Library) (st st1 st2 : LibState L) (c : PubSubClient) (p : pubsub_Client)
    (subID : string) (topic : option Topic) (tp : pubsub_Topic)
    (cfg : option SubscriptionConfig) (sub : pubsub_Subscription)
    (reported : bool) (e : error) :
  subID <> ""%string ->
  topic_pointer topic = Some tp ->
  client c = Some p ->
  lib_call L _ (pubsub_Client_Subscription p subID) st = (sub, st1) ->
  lib_call L _ (pubsub_Subscription_Exists sub) st1 = ((reported, Some e), st2) ->
  run L (PubSubClient_CreateSubscription c subID topic cfg) st =
    (Returned (None, Some (fmt_Errorf_w "failed to check subscription existence" e)), st2,
     [Call (pubsub_Client_Subscription p subID); Call (pubsub_Subscription_Exists sub)]) /\
  errors_Is (fmt_Errorf_w "failed to check subscription existence" e) e = true.
Proof.
  intros HsubID Htopic Hclient Hhandle Hexists. split.
  - unfold PubSubClient_CreateSubscription.
    apply String.eqb_neq in HsubID. rewrite HsubID, Htopic, Hclient.
    cbn. rewrite Hhandle. cbn. rewrite Hexists. reflexivity.
  - apply errors_Is_wrapped, errors_Is_refl.
Qed.

Lemma CreateSubscription_existence_check_error_witness :
  run Offline.library
      (PubSubClient_CreateSubscription InMemory.the_client "orders-worker-1"
         (Some InMemory.orders) None) 0%nat =
    (Returned (None, Some (fmt_Errorf_w "failed to check subscription existence"
                             Offline.unavailable)), 2%nat,
     [Call (pubsub_Client_Subscription (ClientPtr 0) "orders-worker-1");
      Call (pubsub_Subscription_Exists (SubscriptionPtr 0))]).
Proof.
  apply (CreateSubscription_existence_check_error Offline.library 0%nat 1%nat 2%nat
           InMemory.the_client (ClientPtr 0) "orders-worker-1" (Some InMemory.orders)
           (TopicPtr 1) None (SubscriptionPtr 0) false Offline.unavailable).
  - discriminate.
  - reflexivity.
  - reflexivity.
  - reflexivity.
  - reflexivity.
Defined.

(** X13. CreateSubscription returns exactly one of a handle and an error,
    whatever its arguments and whatever the library answers; it panics only
    when, with valid arguments, the client has no connection. *)
Theorem CreateSubscription_returns_handle_or_error
    (L : Library) (st : LibState L) (c : PubSubClient) (subID : string)
    (topic : option Topic) (cfg : option SubscriptionConfig) :
  match run_result L (PubSubClient_CreateSubscription c subID topic cfg) st with
  | Returned (h, err) => h = None <-> err <> None
  | Panicked _ => subID <> ""%string /\ topic_pointer topic <> None /\ client c = None
  end.
Proof.
  destruct (String.eqb_spec subID "") as [HsubID|HsubID].
  { subst subID. unfold run_result. rewrite run_CreateSubscription_empty_id.
    cbn. split; congruence. }
  destruct (topic_pointer topic) as [tp|] eqn:Htopic.
  2:{ unfold run_result.
      rewrite (run_CreateSubscription_no_topic L st c subID topic cfg HsubID Htopic).
      cbn. split; congruence. }
  destruct (client c) as [p|] eqn:Hclient.
  2:{ unfold run_result, PubSubClient_CreateSubscription.
      apply String.eqb_neq in HsubID. rewrite HsubID, Htopic, Hclient. cbn.
      apply String.eqb_neq in HsubID. repeat split; congruence. }
  destruct (lib_call L _ (pubsub_Client_Subscription p subID) st) as [sub st1] eqn:Hhandle.
  destruct (lib_call L _ (pubsub_Subscription_Exists sub) st1)
    as [[reported [e|]] st2] eqn:Hexists.
  - unfold run_result, PubSubClient_CreateSubscription.
    apply String.eqb_neq in HsubID. rewrite HsubID, Htopic, Hclient.
    cbn. rewrite Hhandle. cbn. rewrite Hexists. cbn. split; congruence.
  - destruct reported.
    + unfold run_result, PubSubClient_CreateSubscription.
      apply String.eqb_neq in HsubID. rewrite HsubID, Htopic, Hclient.
      cbn. rewrite Hhandle. cbn. rewrite Hexists. cbn. split; congruence.
    + destruct (run_CreateSubscription_creating L st st1 st2 c p subID topic tp cfg sub
                  HsubID Htopic Hclient Hhandle Hexists)
        as (req & st3 & tr & _ & _ & _ & Hrun).
      unfold run_result. rewrite Hrun. cbn.
      destruct (snd (fst (lib_call L _ (pubsub_Client_CreateSubscription p subID req) st3)));
        split; congruence.
Qed.

(** X14. When the local existence check finds nothing and the library
    then answers the creation request with an error [e], for instance because
    another creator was faster, CreateSubscription returns no handle and that
    very error [e] wrapped ("failed to create subscription"): unwrapping it
    gives [e] back.  It is not ErrSubscriptionExists, and for an [e] made by
    the library errors.Is against ErrSubscriptionExists is false. *)
Theorem CreateSubscription_creation_error_is_wrapped
    (L : Library) (st st1 st2 st3 st4 : LibState L) (c : PubSubClient) (p : pubsub_Client)
    (subID : string) (topic : option Topic) (tp : pubsub_Topic)
    (cfg : option SubscriptionConfig) (sub : pubsub_Subscription)
    (req : pubsub_SubscriptionConfig) (tr : list call)
    (s' : option pubsub_Subscription) (e : error) :
  subID <> ""%string ->
  topic_pointer topic = Some tp ->
  client c = Some p ->
  lib_call L _ (pubsub_Client_Subscription p subID) st = (sub, st1) ->
  lib_call L _ (pubsub_Subscription_Exists sub) st1 = ((false, None), st2) ->
  run L (configure cfg {| sc_Topic := Some tp; sc_AckDeadline := 0;
                          sc_RetentionDuration := 0; sc_RetryPolicy := None |}) st2
    = (Returned req, st3, tr) ->
  lib_call L _ (pubsub_Client_CreateSubscription p subID req) st3 = ((s', Some e), st4) ->
  run L (PubSubClient_CreateSubscription c subID topic cfg) st =
    (Returned (None, Some (fmt_Errorf_w "failed to create subscription" e)), st4,
     [Call (pubsub_Client_Subscription p subID); Call (pubsub_Subscription_Exists sub)]
       ++ tr ++ [Call (pubsub_Client_CreateSubscription p subID req)]) /\
  errors_Unwrap (fmt_Errorf_w "failed to create subscription" e) = Some e /\
  errors_Is (fmt_Errorf_w "failed to create subscription" e) e = true /\
  fmt_Errorf_w "failed to create subscription" e <> ErrSubscriptionExists /\
  (forall text, e = library_error text ->
     errors_Is (fmt_Errorf_w "failed to create subscription" e) ErrSubscriptionExists
       = false).
Proof.
  intros HsubID Htopic Hclient Hhandle Hexists Hcfg Hcreate.
  destruct (run_CreateSubscription_creating L st st1 st2 c p subID topic tp cfg sub
              HsubID Htopic Hclient Hhandle Hexists)
    as (req' & st3' & tr' & Hcfg' & _ & _ & Hrun).
  rewrite Hcfg in Hcfg'. injection Hcfg' as <- <- <-.
  split; [rewrite Hrun, Hcreate; reflexivity|]. split; [reflexivity|]. split.
  - apply errors_Is_wrapped, errors_Is_refl.
  - split; [discriminate|]. intros text ->. reflexivity.
Qed.

Lemma CreateSubscription_creation_error_is_wrapped_witness :
  run Raced.library
      (PubSubClient_CreateSubscription InMemory.the_client "orders-worker-1"
         (Some InMemory.orders) None) 0%nat =
    (Returned (None, Some (fmt_Errorf_w "failed to create subscription"
                             Raced.already_exists)), 3%nat,
     [Call (pubsub_Client_Subscription (ClientPtr 0) "orders-worker-1");
      Call (pubsub_Subscription_Exists (SubscriptionPtr 0));
      Call (pubsub_Client_CreateSubscription (ClientPtr 0) "orders-worker-1"
              {| sc_Topic := Some (TopicPtr 1); sc_AckDeadline := 0;
                 sc_RetentionDuration := 0; sc_RetryPolicy := None |})]).
Proof.
  apply (CreateSubscription_creation_error_is_wrapped Raced.library
           0%nat 1%nat 2%nat 2%nat 3%nat
           InMemory.the_client (ClientPtr 0) "orders-worker-1" (Some InMemory.orders)
           (TopicPtr 1) None (SubscriptionPtr 0)
           {| sc_Topic := Some (TopicPtr 1); sc_AckDeadline := 0;
              sc_RetentionDuration := 0; sc_RetryPolicy := None |}
           [] None Raced.already_exists
           ltac:(discriminate) eq_refl eq_refl eq_refl eq_refl eq_refl eq_refl).
Defined.

(** X15. The retention CreateSubscription asks for comes from StartAtTime
    alone: with a nil configuration or a zero StartAtTime the request has a
    zero retention and the clock is not read; otherwise the clock is read once
    and the retention is the time elapsed since StartAtTime. *)
Theorem CreateSubscription_retention_from_StartAtTime
    (L : Library) (st st1 st2 : LibState L) (c : PubSubClient) (p : pubsub_Client)
    (subID : string) (topic : option Topic) (tp : pubsub_Topic)
    (cfg : option SubscriptionConfig) (sub : pubsub_Subscription) :
  subID <> ""%string ->
  topic_pointer topic = Some tp ->
  client c = Some p ->
  lib_call L _ (pubsub_Client_Subscription p subID) st = (sub, st1) ->
  lib_call L _ (pubsub_Subscription_Exists sub) st1 = ((false, None), st2) ->
  exists req,
    creation_requests (run_trace L (PubSubClient_CreateSubscription c subID topic cfg) st)
      = [req] /\
    match cfg with
    | None =>
        sc_RetentionDuration req = 0 /\
        filter is_time_Since
          (run_trace L (PubSubClient_CreateSubscription c subID topic cfg) st) = []
    | Some cfg' =>
        if IsZero (StartAtTime cfg') then
          sc_RetentionDuration req = 0 /\
          filter is_time_Since
            (run_trace L (PubSubClient_CreateSubscription c subID topic cfg) st) = []
        else
          sc_RetentionDuration req
            = fst (lib_call L _ (time_Since (StartAtTime cfg')) st2) /\
          filter is_time_Since
            (run_trace L (PubSubClient_CreateSubscription c subID topic cfg) st)
            = [Call (time_Since (StartAtTime cfg'))]
    end.
Proof.
  intros HsubID Htopic Hclient Hhandle Hexists.
  destruct (run_CreateSubscription_creating L st st1 st2 c p subID topic tp cfg sub
              HsubID Htopic Hclient Hhandle Hexists)
    as (req & st3 & tr & _ & Hnone & Hretention & Hrun).
  exists req. unfold run_trace. rewrite Hrun. cbn [snd].
  split.
  - unfold creation_requests in *. cbn. rewrite flat_map_app, Hnone. reflexivity.
  - destruct cfg as [cfg'|]; [destruct (IsZero (StartAtTime cfg'))|];
      destruct Hretention as (_ & -> & ->); split; reflexivity.
Qed.

Lemma CreateSubscription_retention_from_StartAtTime_witness :
  exists req,
    creation_requests
      (run_trace InMemory.library
         (PubSubClient_CreateSubscription InMemory.the_client "orders-worker-1"
            (Some InMemory.orders)
            (Some {| cfg_Topic := None; AckDeadline := 0; MinBackoff := 0;
                     MaxBackoff := 0; StartAtTime := 1699999000 * Second |}))
         InMemory.orders_only) = [req] /\
    sc_RetentionDuration req = 1000 * Second.
Proof.
  destruct (CreateSubscription_retention_from_StartAtTime
              InMemory.library InMemory.orders_only
              (InMemory.alloc "orders-worker-1" InMemory.orders_only)
              (InMemory.alloc "orders-worker-1" InMemory.orders_only)
              InMemory.the_client (ClientPtr 0) "orders-worker-1"
              (Some InMemory.orders) (TopicPtr 1)
              (Some {| cfg_Topic := None; AckDeadline := 0; MinBackoff := 0;
                       MaxBackoff := 0; StartAtTime := 1699999000 * Second |})
              (SubscriptionPtr 2)
              ltac:(discriminate) eq_refl eq_refl eq_refl eq_refl)
    as (req & Hreq & Hretention).
  exists req. split; [exact Hreq|].
  cbn in Hretention. destruct Hretention as [-> _]. reflexivity.
Defined.

(** ** Running functions that list or log *)

Section RunningApp.

Variable AL : AppLibrary.

Lemma run_app_abind {A B} (p : App A) (k : A -> App B) (st : AppState AL) :
  run_app AL (abind p k) st =
    match run_app AL p st with
    | (Returned a, st1, tr1) =>
        let '(r, st2, tr2) := run_app AL (k a) st1 in (r, st2, tr1 ++ tr2)
    | (Panicked v, st1, tr1) => (Panicked v, st1, tr1)
    end.
Proof.
  revert st. induction p as [a|v|X e h IH]; intros st.
  - cbn. destruct (run_app AL (k a) st) as [[r st2] tr2]. reflexivity.
  - reflexivity.
  - cbn. destruct (app_call AL X e st) as [x st1]. rewrite IH.
    destruct (run_app AL (h x) st1) as [[[a|v] st2] tr1]; [|reflexivity].
    destruct (run_app AL (k a) st2) as [[r st3] tr2]. reflexivity.
Qed.

Lemma run_app_atrigger {X} (e : appE X) (st : AppState AL) :
  run_app AL (atrigger e) st =
    (Returned (fst (app_call AL X e st)), snd (app_call AL X e st), [ACall e]).
Proof.
  cbn. destruct (app_call AL X e st). reflexivity.
Qed.

(** A function of the wrapper runs the same when called from this layer. *)
Lemma run_app_lift {A} (p : Prog A) (st : AppState AL) :
  run_app AL (lift p) st =
    let '(r, st', tr) := run (library_of AL) p st in (r, st', map of_call tr).
Proof.
  revert st. induction p as [a|v|X e h IH]; intros st; [reflexivity|reflexivity|].
  cbn. destruct (app_call AL X (Lib e) st) as [x st1]. rewrite IH.
  destruct (run (library_of AL) (h x) st1) as [[r st2] tr]. reflexivity.
Qed.

Lemma run_app_finally {A} (body : App A) (deferred : App unit) (st : AppState AL) :
  run_app AL (finally body deferred) st =
    let '(r, st1, tr1) := run_app AL body st in
    let '(r', st2, tr2) := run_app AL deferred st1 in
    (match r' with Returned _ => r | Panicked v => Panicked v end, st2, tr1 ++ tr2).
Proof.
  revert st. induction body as [a|v|X e h IH]; intros st.
  - cbn. rewrite run_app_abind.
    destruct (run_app AL deferred st) as [[[[]|v'] st2] tr2]; cbn;
      rewrite ?app_nil_r; reflexivity.
  - cbn. rewrite run_app_abind.
    destruct (run_app AL deferred st) as [[[[]|v'] st2] tr2]; cbn;
      rewrite ?app_nil_r; reflexivity.
  - cbn. destruct (app_call AL X e st) as [x st1]. rewrite IH.
    destruct (run_app AL (h x) st1) as [[r st2] tr1].
    destruct (run_app AL deferred st2) as [[r' st3] tr2]. reflexivity.
Qed.

Lemma run_avoids {A} (P : app_call_record -> bool) (p : App A) (st : AppState AL) :
  avoids P p -> existsb P (app_trace AL p st) = false.
Proof.
  intros Hp. revert st. unfold app_trace.
  induction Hp as [a|v|X e k He _ IH]; intros st; [reflexivity|reflexivity|].
  cbn. destruct (app_call AL X e st) as [x st1]. specialize (IH x st1).
  destruct (run_app AL (k x) st1) as [[r st2] tr]. cbn in *. now rewrite He, IH.
Qed.

Lemma run_returns_only {A} (R : A -> Prop) (p : App A) (st : AppState AL) (a : A) :
  returns_only R p -> app_result AL p st = Returned a -> R a.
Proof.
  intros Hp. revert st. unfold app_result.
  induction Hp as [a' Ha'|v|X e k _ IH]; intros st; cbn.
  - now intros [= <-].
  - discriminate.
  - destruct (app_call AL X e st) as [x st1]. specialize (IH x st1).
    destruct (run_app AL (k x) st1) as [[r st2] tr]. exact IH.
Qed.

End RunningApp.

Lemma avoids_abind {A B} (P : app_call_record -> bool) (p : App A) (k : A -> App B) :
  avoids P p -> (forall a, avoids P (k a)) -> avoids P (abind p k).
Proof.
  intros Hp Hk. induction Hp as [a|v|X e h He _ IH]; cbn; [apply Hk|constructor|].
  constructor; [exact He | exact IH].
Qed.

Lemma avoids_finally {A} (P : app_call_record -> bool) (body : App A) (deferred : App unit) :
  avoids P body -> avoids P deferred -> avoids P (finally body deferred).
Proof.
  intros Hb Hd. induction Hb as [a|v|X e h He _ IH]; cbn.
  - apply avoids_abind; [exact Hd | constructor].
  - apply avoids_abind; [exact Hd | constructor].
  - constructor; [exact He | exact IH].
Qed.

Lemma returns_only_abind {A B} (R : A -> Prop) (Q : B -> Prop)
      (p : App A) (k : A -> App B) :
  returns_only R p -> (forall a, R a -> returns_only Q (k a)) ->
  returns_only Q (abind p k).
Proof.
  intros Hp Hk. induction Hp as [a Ha|v|X e h _ IH]; cbn;
    [now apply Hk | constructor | constructor; exact IH].
Qed.

Lemma returns_only_any {A} (p : App A) : returns_only (fun _ => True) p.
Proof.
  induction p; constructor; auto.
Qed.

Lemma returns_only_finally {A} (R : A -> Prop) (body : App A) (deferred : App unit) :
  returns_only R body -> returns_only R (finally body deferred).
Proof.
  intros Hb. induction Hb as [a Ha|v|X e h _ IH]; cbn.
  - apply (returns_only_abind (fun _ => True)); [apply returns_only_any|].
    intros _ _. now constructor.
  - apply (returns_only_abind (fun _ => True)); [apply returns_only_any|].
    intros _ _. constructor.
  - constructor. exact IH.
Qed.

(** ** Listing *)

Lemma ListSubscriptions_loop_runs (AL : AppLibrary) (it : pubsub_SubscriptionIterator)
      (st st' : AppState AL) (ids : list string) (ending : option error) :
  lists_subscriptions AL it st ids ending st' ->
  forall (fuel : nat) (acc : list string),
    (length ids < fuel)%nat ->
    app_result AL (ListSubscriptions_loop fuel it acc) st =
      Returned (Some (listed "failed to list subscriptions" (acc ++ ids) ending)) /\
    app_state AL (ListSubscriptions_loop fuel it acc) st = st'.
Proof.
  unfold app_result, app_state.
  induction 1 as [st st' Hnext|st st' e Hnext|st st1 st2 st' sub id ids ending Hnext Hid _ IH];
    intros [|fuel] acc Hfuel; cbn in Hfuel; try lia; cbn; rewrite Hnext; cbn.
  - rewrite app_nil_r. split; reflexivity.
  - split; reflexivity.
  - rewrite Hid. specialize (IH fuel (acc ++ [id]) ltac:(lia)).
    destruct (run_app AL (ListSubscriptions_loop fuel it (acc ++ [id])) st2)
      as [[r st3] tr]. cbn in *. rewrite <- app_assoc in IH. exact IH.
Qed.

Lemma ListTopics_loop_runs (AL : AppLibrary) (it : pubsub_TopicIterator)
      (st st' : AppState AL) (ids : list string) (ending : option error) :
  lists_topics AL it st ids ending st' ->
  forall (fuel : nat) (acc : list string),
    (length ids < fuel)%nat ->
    app_result AL (ListTopics_loop fuel it acc) st =
      Returned (Some (listed "failed to list topics" (acc ++ ids) ending)) /\
    app_state AL (ListTopics_loop fuel it acc) st = st'.
Proof.
  unfold app_result, app_state.
  induction 1 as [st st' Hnext|st st' e Hnext|st st1 st2 st' tp id ids ending Hnext Hid _ IH];
    intros [|fuel] acc Hfuel; cbn in Hfuel; try lia; cbn; rewrite Hnext; cbn.
  - rewrite app_nil_r. split; reflexivity.
  - split; reflexivity.
  - rewrite Hid. specialize (IH fuel (acc ++ [id]) ltac:(lia)).
    destruct (run_app AL (ListTopics_loop fuel it (acc ++ [id])) st2)
      as [[r st3] tr]. cbn in *. rewrite <- app_assoc in IH. exact IH.
Qed.

(** X16. When the iterator hands out every subscription and ends with
    iterator.Done, ListSubscriptions returns their identifiers, all of them
    and in the iterator's order, with a nil error; the loop needs one call of
    Next more than there are subscriptions. *)
Theorem ListSubscriptions_returns_all_in_order
    (AL : AppLibrary) (st st1 st' : AppState AL) (c : PubSubClient) (p : pubsub_Client)
    (it : pubsub_SubscriptionIterator) (ids : list string) (fuel : nat) :
  client c = Some p ->
  app_call AL _ (pubsub_Client_Subscriptions p) st = (it, st1) ->
  lists_subscriptions AL it st1 ids None st' ->
  (length ids < fuel)%nat ->
  app_result AL (PubSubClient_ListSubscriptions fuel c) st = Returned (Some (ids, None)) /\
  app_state AL (PubSubClient_ListSubscriptions fuel c) st = st'.
Proof.
  intros Hclient Hopen Hlist Hfuel.
  destruct (ListSubscriptions_loop_runs AL it st1 st' ids None Hlist fuel [] Hfuel)
    as [Hr Hs].
  unfold app_result, app_state in *. unfold PubSubClient_ListSubscriptions.
  rewrite Hclient. cbn. rewrite Hopen.
  destruct (run_app AL (ListSubscriptions_loop fuel it []) st1) as [[r st2] tr].
  cbn in *. now subst.
Qed.

Lemma ListSubscriptions_returns_all_in_order_witness :
  app_result InMemoryApp.library
    (PubSubClient_ListSubscriptions 3 InMemory.the_client)
    (InMemoryApp.on InMemoryApp.two_workers) =
    Returned (Some (["orders-worker-2"; "orders-worker-1"]%string, None)).
Proof.
  eapply (ListSubscriptions_returns_all_in_order InMemoryApp.library
            (InMemoryApp.on InMemoryApp.two_workers) _ _ InMemory.the_client
            (ClientPtr 0) (SubscriptionIteratorPtr 2)
            ["orders-worker-2"; "orders-worker-1"]%string 3 eq_refl eq_refl).
  - eapply lists_subscriptions_item; [reflexivity | reflexivity |].
    eapply lists_subscriptions_item; [reflexivity | reflexivity |].
    eapply lists_subscriptions_done. reflexivity.
  - cbn. lia.
Defined.

(** X17. When the iterator fails after handing out some subscriptions,
    ListSubscriptions returns no identifier at all, those already read are
    dropped, together with the iterator's error wrapped ("failed to list
    subscriptions"). *)
Theorem ListSubscriptions_error_drops_partial_result
    (AL : AppLibrary) (st st1 st' : AppState AL) (c : PubSubClient) (p : pubsub_Client)
    (it : pubsub_SubscriptionIterator) (ids : list string) (e : error) (fuel : nat) :
  client c = Some p ->
  app_call AL _ (pubsub_Client_Subscriptions p) st = (it, st1) ->
  lists_subscriptions AL it st1 ids (Some e) st' ->
  (length ids < fuel)%nat ->
  app_result AL (PubSubClient_ListSubscriptions fuel c) st =
    Returned (Some ([], Some (fmt_Errorf_w "failed to list subscriptions" e))) /\
  errors_Is (fmt_Errorf_w "failed to list subscriptions" e) e = true.
Proof.
  intros Hclient Hopen Hlist Hfuel.
  destruct (ListSubscriptions_loop_runs AL it st1 st' ids (Some e) Hlist fuel [] Hfuel)
    as [Hr _].
  split; [|apply errors_Is_wrapped, errors_Is_refl].
  unfold app_result in *. unfold PubSubClient_ListSubscriptions.
  rewrite Hclient. cbn. rewrite Hopen.
  destruct (run_app AL (ListSubscriptions_loop fuel it []) st1) as [[r st2] tr].
  cbn in *. now subst.
Qed.

Lemma ListSubscriptions_error_drops_partial_result_witness :
  app_result InMemoryApp.library
    (PubSubClient_ListSubscriptions 3 InMemory.the_client)
    (InMemoryApp.during_outage InMemoryApp.two_workers) =
    Returned (Some ([], Some (fmt_Errorf_w "failed to list subscriptions"
                                InMemoryApp.unavailable))).
Proof.
  eapply (ListSubscriptions_error_drops_partial_result InMemoryApp.library
            (InMemoryApp.during_outage InMemoryApp.two_workers) _ _ InMemory.the_client
            (ClientPtr 0) (SubscriptionIteratorPtr 2)
            ["orders-worker-2"; "orders-worker-1"]%string InMemoryApp.unavailable 3
            eq_refl eq_refl).
  - eapply lists_subscriptions_item; [reflexivity | reflexivity |].
    eapply lists_subscriptions_item; [reflexivity | reflexivity |].
    eapply lists_subscriptions_failed. reflexivity.
  - cbn. lia.
Defined.

(** X18. ListTopics returns the identifiers of all topics in the
    iterator's order with a nil error when the iterator ends with
    iterator.Done, and no identifier with the iterator's error wrapped
    ("failed to list topics") when it fails, however many topics it had handed
    out before. *)
Theorem ListTopics_returns_all_or_error
    (AL : AppLibrary) (st st1 st' : AppState AL) (c : PubSubClient) (p : pubsub_Client)
    (it : pubsub_TopicIterator) (ids : list string) (ending : option error) (fuel : nat) :
  client c = Some p ->
  app_call AL _ (pubsub_Client_Topics p) st = (it, st1) ->
  lists_topics AL it st1 ids ending st' ->
  (length ids < fuel)%nat ->
  app_result AL (PubSubClient_ListTopics fuel c) st =
    Returned (Some (match ending with
                    | None => (ids, None)
                    | Some e => ([], Some (fmt_Errorf_w "failed to list topics" e))
                    end)) /\
  app_state AL (PubSubClient_ListTopics fuel c) st = st'.
Proof.
  intros Hclient Hopen Hlist Hfuel.
  destruct (ListTopics_loop_runs AL it st1 st' ids ending Hlist fuel [] Hfuel) as [Hr Hs].
  unfold app_result, app_state in *. unfold PubSubClient_ListTopics.
  rewrite Hclient. cbn. rewrite Hopen.
  destruct (run_app AL (ListTopics_loop fuel it []) st1) as [[r st2] tr].
  cbn in *. now subst.
Qed.

Lemma ListTopics_returns_all_or_error_witness :
  app_result InMemoryApp.library
    (PubSubClient_ListTopics 3 InMemory.the_client)
    (InMemoryApp.on InMemoryApp.two_workers) =
    Returned (Some (["orders"; "invoices"]%string, None)).
Proof.
  eapply (ListTopics_returns_all_or_error InMemoryApp.library
            (InMemoryApp.on InMemoryApp.two_workers) _ _ InMemory.the_client
            (ClientPtr 0) (TopicIteratorPtr 2)
            ["orders"; "invoices"]%string None 3 eq_refl eq_refl).
  - eapply lists_topics_item; [reflexivity | reflexivity |].
    eapply lists_topics_item; [reflexivity | reflexivity |].
    eapply lists_topics_done. reflexivity.
  - cbn. lia.
Defined.

(** ** Package main *)

Lemma pavoids_pbind {A B} (P : call -> bool) (p : Prog A) (k : A -> Prog B) :
  pavoids P p -> (forall a, pavoids P (k a)) -> pavoids P (pbind p k).
Proof.
  intros Hp Hk. induction Hp as [a|v|X e h He _ IH]; cbn; [apply Hk|constructor|].
  constructor; [exact He | exact IH].
Qed.

Lemma avoids_lift {A} (P : app_call_record -> bool) (p : Prog A) :
  pavoids (fun c => P (of_call c)) p -> avoids P (lift p).
Proof.
  intros Hp. induction Hp as [a|v|X e h He _ IH]; cbn; constructor; auto.
Qed.

Lemma pavoids_configure (P : call -> bool) (cfg : option SubscriptionConfig)
      (subConfig : pubsub_SubscriptionConfig) :
  (forall start, P (Call (time_Since start)) = false) ->
  pavoids P (configure cfg subConfig).
Proof.
  intros Hclock. destruct cfg as [cfg|]; cbn; [|constructor].
  destruct (IsZero (StartAtTime cfg)); cbn.
  - destruct ((MinBackoff cfg >? 0) || (MaxBackoff cfg >? 0)); constructor.
  - constructor; [apply Hclock|]. intros d. cbn.
    destruct ((MinBackoff cfg >? 0) || (MaxBackoff cfg >? 0)); constructor.
Qed.

Ltac walk_prog :=
  repeat (cbn;
          first
            [ apply pavoids_ret
            | apply pavoids_panic
            | apply pavoids_vis; [reflexivity | intros ?]
            | apply pavoids_pbind; [apply pavoids_configure; reflexivity | intros ?]
            | match goal with
              | |- pavoids _ (match ?x with _ => _ end) => destruct x
              | |- context [deref_client _ ?c] => destruct c
              end ]).

Lemma CreateSubscription_avoids (P : call -> bool) (c : PubSubClient) (subID : string)
      (topic : option Topic) (cfg : option SubscriptionConfig) :
  (forall p id, P (Call (pubsub_Client_Subscription p id)) = false) ->
  (forall sub, P (Call (pubsub_Subscription_Exists sub)) = false) ->
  (forall start, P (Call (time_Since start)) = false) ->
  (forall p id req, P (Call (pubsub_Client_CreateSubscription p id req)) = false) ->
  pavoids P (PubSubClient_CreateSubscription c subID topic cfg).
Proof.
  intros H1 H2 H3 H4. unfold PubSubClient_CreateSubscription.
  destruct (String.eqb subID ""); [constructor|].
  destruct (topic_pointer topic) as [tp|]; [|constructor].
  destruct (client c) as [p|]; cbn; [|constructor].
  constructor; [apply H1|]. intros sub. cbn.
  constructor; [apply H2|]. intros [reported [e|]]; cbn; [constructor|].
  destruct reported; [constructor|].
  apply pavoids_pbind; [apply pavoids_configure, H3|]. intros req. cbn.
  constructor; [apply H4|]. intros [s' [e|]]; constructor.
Qed.

Lemma Receive_avoids (P : call -> bool) (h : Subscription) (handler : Handler)
      (cfg : option ReceiveConfig) :
  (forall sub v, P (Call (pubsub_Set_Synchronous sub v)) = false) ->
  (forall sub v, P (Call (pubsub_Set_NumGoroutines sub v)) = false) ->
  (forall sub v, P (Call (pubsub_Set_MaxOutstandingMessages sub v)) = false) ->
  (forall sub v, P (Call (pubsub_Set_MaxOutstandingBytes sub v)) = false) ->
  (forall sub f, P (Call (pubsub_Subscription_Receive sub f)) = false) ->
  pavoids P (Subscription_Receive h handler cfg).
Proof.
  intros H1 H2 H3 H4 H5. unfold Subscription_Receive.
  destruct (s h) as [sub|]; [|constructor].
  set (c := match cfg with Some c => c | None => ReceiveConfig_zero end).
  cbn. constructor; [apply H1|]. intros []. cbn.
  assert (Hwhen : forall b e, P (Call e) = false -> pavoids P (when b (trigger e))).
  { intros [] e He; cbn; [|constructor]. constructor; [exact He|]. intros ?. constructor. }
  apply pavoids_pbind; [apply Hwhen, H2|]. intros [].
  apply pavoids_pbind; [apply Hwhen, H3|]. intros [].
  apply pavoids_pbind; [apply Hwhen, H4|]. intros [].
  constructor; [apply H5|]. intros ?. constructor.
Qed.

Lemma testPubSubFunctions_body_avoids_Close (c : PubSubClient) :
  avoids is_Close (main.testPubSubFunctions_body c).
Proof.
  unfold main.testPubSubFunctions_body.
  apply avoids_abind.
  { apply avoids_lift. unfold PubSubClient_Topic, main.topicName. walk_prog. }
  intros topic. apply avoids_abind.
  { apply avoids_lift. unfold Topic_Exists. walk_prog. }
  intros [exists_ [e|]]; [constructor|].
  destruct (negb exists_); [constructor|].
  apply avoids_abind.
  { apply avoids_lift. apply CreateSubscription_avoids; reflexivity. }
  intros [sub [e|]]; [constructor|].
  apply avoids_abind.
  { apply avoids_lift. unfold Topic_Publish. walk_prog. }
  intros [msgID [e|]]; [constructor|].
  apply avoids_abind.
  { constructor; [reflexivity|]. intros ?. constructor. }
  intros _. destruct sub as [sub|]; [|constructor].
  apply avoids_abind.
  { apply avoids_lift. apply Receive_avoids; reflexivity. }
  intros [e|]; [|constructor].
  destruct (negb (errors_Is e context_Canceled)); constructor.
Qed.

Lemma pcompletes_pbind {A B} (R : A -> Prop) (Q : B -> Prop)
      (p : Prog A) (k : A -> Prog B) :
  pcompletes R p -> (forall a, R a -> pcompletes Q (k a)) -> pcompletes Q (pbind p k).
Proof.
  intros Hp Hk. induction Hp as [a Ha|X e h _ IH]; cbn; [now apply Hk|].
  constructor. exact IH.
Qed.

Lemma completes_lift {A} (R : A -> Prop) (p : Prog A) :
  pcompletes R p -> completes R (lift p).
Proof.
  intros Hp. induction Hp as [a Ha|X e h _ IH]; cbn; constructor; auto.
Qed.

Lemma completes_abind {A B} (R : A -> Prop) (Q : B -> Prop)
      (p : App A) (k : A -> App B) :
  completes R p -> (forall a, R a -> completes Q (k a)) -> completes Q (abind p k).
Proof.
  intros Hp Hk. induction Hp as [a Ha|X e h _ IH]; cbn; [now apply Hk|].
  constructor. exact IH.
Qed.

Lemma run_completes {A} (AL : AppLibrary) (R : A -> Prop) (p : App A) (st : AppState AL) :
  completes R p -> exists a, app_result AL p st = Returned a /\ R a.
Proof.
  intros Hp. revert st. unfold app_result.
  induction Hp as [a Ha|X e k _ IH]; intros st; cbn; [eauto|].
  destruct (app_call AL X e st) as [x st1]. specialize (IH x st1).
  destruct (run_app AL (k x) st1) as [[r st2] tr]. exact IH.
Qed.

Lemma pcompletes_configure (cfg : option SubscriptionConfig)
      (subConfig : pubsub_SubscriptionConfig) :
  pcompletes (fun _ => True) (configure cfg subConfig).
Proof.
  destruct cfg as [cfg|]; cbn; [|now constructor].
  destruct (IsZero (StartAtTime cfg)); cbn.
  - destruct ((MinBackoff cfg >? 0) || (MaxBackoff cfg >? 0)); now constructor.
  - constructor. intros d. cbn.
    destruct ((MinBackoff cfg >? 0) || (MaxBackoff cfg >? 0)); now constructor.
Qed.

(** On a client with a connection CreateSubscription does not panic, and a
    nil error comes with a handle. *)
Lemma CreateSubscription_completes (p : pubsub_Client) (subID : string)
      (topic : option Topic) (cfg : option SubscriptionConfig) :
  pcompletes (fun r : option Subscription * option error => snd r = None -> fst r <> None)
             (PubSubClient_CreateSubscription {| client := Some p |} subID topic cfg).
Proof.
  unfold PubSubClient_CreateSubscription.
  destruct (String.eqb subID ""); [constructor; discriminate|].
  destruct (topic_pointer topic) as [tp|]; [|constructor; discriminate].
  cbn. constructor. intros sub. cbn.
  constructor. intros [reported [e|]]; cbn; [constructor; discriminate|].
  destruct reported; [constructor; discriminate|].
  apply (pcompletes_pbind (fun _ => True)); [apply pcompletes_configure|].
  intros req _. cbn.
  constructor. intros [s' [e|]]; constructor; cbn; discriminate.
Qed.

Lemma Receive_completes (h : Subscription) (handler : Handler)
      (cfg : option ReceiveConfig) :
  pcompletes (fun _ => True) (Subscription_Receive h handler cfg).
Proof.
  unfold Subscription_Receive.
  destruct (s h) as [sub|]; [|now constructor].
  set (c := match cfg with Some c => c | None => ReceiveConfig_zero end).
  cbn. constructor. intros []. cbn.
  assert (Hwhen : forall b (e : pubsubE unit),
            pcompletes (fun _ => True) (when b (trigger e))).
  { intros [] e; cbn; [|now constructor]. constructor. intros ?. now constructor. }
  apply (pcompletes_pbind (fun _ => True)); [apply Hwhen|]. intros [] _.
  apply (pcompletes_pbind (fun _ => True)); [apply Hwhen|]. intros [] _.
  apply (pcompletes_pbind (fun _ => True)); [apply Hwhen|]. intros [] _.
  constructor. intros ?. now constructor.
Qed.

(** With a connection, no step of [testPubSubFunctions] panics. *)
Lemma testPubSubFunctions_body_completes (p : pubsub_Client) :
  completes (fun _ => True) (main.testPubSubFunctions_body {| client := Some p |}).
Proof.
  unfold main.testPubSubFunctions_body.
  apply (completes_abind (fun _ => True)).
  { apply completes_lift. unfold PubSubClient_Topic, main.topicName. cbn.
    constructor. intros tp. now constructor. }
  intros topic _. apply (completes_abind (fun _ => True)).
  { apply completes_lift. unfold Topic_Exists.
    destruct (t topic) as [tp|]; [|now constructor].
    cbn. constructor. intros [[] err]. now constructor. }
  intros [exists_ [e|]] _; [now constructor|].
  destruct (negb exists_); [now constructor|].
  apply (completes_abind
           (fun r : option Subscription * option error => snd r = None -> fst r <> None)).
  { apply completes_lift, CreateSubscription_completes. }
  intros [sub [e|]] Hsub; [now constructor|].
  apply (completes_abind (fun _ => True)).
  { apply completes_lift. unfold Topic_Publish.
    destruct (t topic) as [tp|]; [|now constructor].
    cbn. constructor. intros now_. cbn. constructor. intros r. cbn.
    constructor. intros [msgID [e|]]; now constructor. }
  intros [msgID [e|]] _; [now constructor|].
  apply (completes_abind (fun _ => True)).
  { constructor. intros ?. now constructor. }
  intros _ _. destruct sub as [sub|]; [|now destruct (Hsub eq_refl)].
  apply (completes_abind (fun _ => True)).
  { apply completes_lift, Receive_completes. }
  intros [e|] _; [|now constructor].
  destruct (negb (errors_Is e context_Canceled)); now constructor.
Qed.

(** X19. Once NewPubSubClient has given it a client with a connection,
    testPubSubFunctions returns without a panic, and it calls Close on that
    connection exactly once, as its last call to the library, on every path:
    whichever step fails and when none does. *)
Theorem testPubSubFunctions_closes_client_once_at_the_end
    (AL : AppLibrary) (st st1 : AppState AL) (projectID : string) (p : pubsub_Client) :
  projectID <> ""%string ->
  app_call AL _ (Lib (pubsub_NewClient projectID)) st = ((Some p, None), st1) ->
  (exists r, app_result AL (main.testPubSubFunctions projectID) st = Returned r) /\
  exists tr,
    app_trace AL (main.testPubSubFunctions projectID) st =
      ACall (Lib (pubsub_NewClient projectID)) :: tr
        ++ [ACall (Lib (pubsub_Client_Close p))] /\
    existsb is_Close tr = false.
Proof.
  intros HprojectID Hnew.
  pose proof (run_avoids AL is_Close
                (main.testPubSubFunctions_body {| client := Some p |}) st1
                (testPubSubFunctions_body_avoids_Close _)) as Havoid.
  destruct (run_completes AL (fun _ => True)
              (main.testPubSubFunctions_body {| client := Some p |}) st1
              (testPubSubFunctions_body_completes p)) as (r0 & Hreturns & _).
  unfold app_trace, app_result in *. unfold main.testPubSubFunctions, NewPubSubClient.
  apply String.eqb_neq in HprojectID. rewrite HprojectID.
  cbn -[main.testPubSubFunctions_body finally]. rewrite Hnew.
  cbn -[main.testPubSubFunctions_body finally].
  rewrite run_app_finally.
  destruct (run_app AL (main.testPubSubFunctions_body {| client := Some p |}) st1)
    as [[r st2] tr]. cbn in Havoid, Hreturns. subst r. cbn.
  destruct (app_call AL _ (Lib (pubsub_Client_Close p)) st2) as [err st3]. cbn.
  split; [eauto|]. exists tr. split; [reflexivity | exact Havoid].
Qed.

Lemma testPubSubFunctions_closes_client_once_at_the_end_witness :
  exists tr,
    app_trace InMemoryApp.library (main.testPubSubFunctions "gpchandson-api")
      (InMemoryApp.on InMemory.orders_only) =
      ACall (Lib (pubsub_NewClient "gpchandson-api")) :: tr
        ++ [ACall (Lib (pubsub_Client_Close (ClientPtr 2)))] /\
    existsb is_Close tr = false.
Proof.
  eapply (testPubSubFunctions_closes_client_once_at_the_end InMemoryApp.library
            (InMemoryApp.on InMemory.orders_only) _ "gpchandson-api" (ClientPtr 2)).
  - discriminate.
  - reflexivity.
Defined.

(** X20. testPubSubFunctions never returns the error "topic ... does not
    exist": Exists on the handle of a named topic reports false only together
    with an error.  When the topic lookup fails with an error [e], as it does
    for a topic that is not there, the function returns that very error [e]
    wrapped ("failed to check topic existence"), after the lookup and the
    closing of the client and nothing else. *)
Theorem testPubSubFunctions_never_reports_missing_topic
    (AL : AppLibrary) (st : AppState AL) (projectID : string) :
  app_result AL (main.testPubSubFunctions projectID) st
    <> Returned (Some main.topic_does_not_exist) /\
  forall (st1 st2 st3 : AppState AL) (p : pubsub_Client) (tp : pubsub_Topic) (e : error),
    projectID <> ""%string ->
    app_call AL _ (Lib (pubsub_NewClient projectID)) st = ((Some p, None), st1) ->
    app_call AL _ (Lib (pubsub_Client_Topic p "orders")) st1 = (tp, st2) ->
    app_call AL _ (Lib (pubsub_Topic_Config tp)) st2 = ((tt, Some e), st3) ->
    app_result AL (main.testPubSubFunctions projectID) st =
      Returned (Some (fmt_Errorf_w "failed to check topic existence" e)) /\
    errors_Unwrap (fmt_Errorf_w "failed to check topic existence" e) = Some e /\
    app_trace AL (main.testPubSubFunctions projectID) st =
      [ACall (Lib (pubsub_NewClient projectID));
       ACall (Lib (pubsub_Client_Topic p "orders"));
       ACall (Lib (pubsub_Topic_Config tp));
       ACall (Lib (pubsub_Client_Close p))].
Proof.
  assert (Hwraps : returns_only
            (fun r => forall err, r = Some err -> exists prefix e, err = fmt_Errorf_w prefix e)
            (main.testPubSubFunctions projectID)).
  { assert (Hwrapped : forall prefix e,
              returns_only
                (fun r : option error =>
                   forall err, r = Some err -> exists prefix e, err = fmt_Errorf_w prefix e)
                (ARet (Some (fmt_Errorf_w prefix e)))).
    { intros prefix e. constructor. intros err [= <-]. eauto. }
    assert (Hnil : returns_only
              (fun r : option error =>
                 forall err, r = Some err -> exists prefix e, err = fmt_Errorf_w prefix e)
              (ARet None)).
    { constructor. discriminate. }
    unfold main.testPubSubFunctions.
    apply (returns_only_abind (fun _ => True)); [apply returns_only_any|].
    intros [client_ [e|]] _; [apply Hwrapped|].
    destruct client_ as [c|]; [|constructor].
    apply returns_only_finally. unfold main.testPubSubFunctions_body.
    apply (returns_only_abind (fun h => t h <> None)).
    { unfold PubSubClient_Topic, main.topicName. cbn.
      destruct (client c); cbn; constructor. intros tp. constructor. discriminate. }
    intros topic Htopic. destruct topic as [[tp|]]; [clear Htopic | now cbn in Htopic].
    apply (returns_only_abind (fun r : bool * option error => snd r = None -> fst r = true)).
    { unfold Topic_Exists. cbn. constructor. intros [[] [e|]]; constructor; cbn; congruence. }
    intros [exists_ [e|]] Hexists; [apply Hwrapped|].
    cbn in Hexists. rewrite (Hexists eq_refl). cbn [negb].
    apply (returns_only_abind (fun _ => True)); [apply returns_only_any|].
    intros [sub [e|]] _; [apply Hwrapped|].
    apply (returns_only_abind (fun _ => True)); [apply returns_only_any|].
    intros [msgID [e|]] _; [apply Hwrapped|].
    apply (returns_only_abind (fun _ => True)); [apply returns_only_any|].
    intros _ _. destruct sub as [sub|]; [|constructor].
    apply (returns_only_abind (fun _ => True)); [apply returns_only_any|].
    intros [e|] _; [|apply Hnil].
    destruct (negb (errors_Is e context_Canceled)); [apply Hwrapped | apply Hnil]. }
  split.
  - intros Hresult.
    destruct (run_returns_only AL _ _ st _ Hwraps Hresult _ eq_refl) as (prefix & e & H).
    discriminate H.
  - clear Hwraps. intros st1 st2 st3 p tp e HprojectID Hnew Htopic Hconfig.
    unfold app_result, app_trace, main.testPubSubFunctions, NewPubSubClient,
      main.testPubSubFunctions_body, main.topicName.
    apply String.eqb_neq in HprojectID. rewrite HprojectID.
    cbn. rewrite Hnew. cbn. rewrite Htopic. cbn. rewrite Hconfig. cbn.
    destruct (app_call AL _ (Lib (pubsub_Client_Close p)) st3) as [err st4]. cbn.
    repeat split.
Qed.

Lemma testPubSubFunctions_never_reports_missing_topic_witness :
  app_result InMemoryApp.library (main.testPubSubFunctions "gpchandson-api")
    (InMemoryApp.on no_topics) =
    Returned (Some (fmt_Errorf_w "failed to check topic existence" InMemory.not_found)).
Proof.
  eapply (proj2 (testPubSubFunctions_never_reports_missing_topic InMemoryApp.library
                   (InMemoryApp.on no_topics) "gpchandson-api")
            _ _ _ (ClientPtr 2) (TopicPtr 3) InMemory.not_found).
  - discriminate.
  - reflexivity.
  - reflexivity.
  - reflexivity.
Defined.

(** X21. When the topic exists and the subscription "orders-worker-1" is
    already there, as after an earlier run, testPubSubFunctions fails with
    ErrSubscriptionExists wrapped ("failed to create subscription"): it
    publishes nothing, starts no receive loop, and closes the client. *)
Theorem testPubSubFunctions_fails_when_subscription_exists
    (AL : AppLibrary) (st st1 st2 st3 st4 st5 : AppState AL) (projectID : string)
    (p : pubsub_Client) (tp : pubsub_Topic) (sub : pubsub_Subscription) :
  projectID <> ""%string ->
  app_call AL _ (Lib (pubsub_NewClient projectID)) st = ((Some p, None), st1) ->
  app_call AL _ (Lib (pubsub_Client_Topic p "orders")) st1 = (tp, st2) ->
  app_call AL _ (Lib (pubsub_Topic_Config tp)) st2 = ((tt, None), st3) ->
  app_call AL _ (Lib (pubsub_Client_Subscription p "orders-worker-1")) st3 = (sub, st4) ->
  app_call AL _ (Lib (pubsub_Subscription_Exists sub)) st4 = ((true, None), st5) ->
  app_result AL (main.testPubSubFunctions projectID) st =
    Returned (Some (fmt_Errorf_w "failed to create subscription" ErrSubscriptionExists)) /\
  app_trace AL (main.testPubSubFunctions projectID) st =
    [ACall (Lib (pubsub_NewClient projectID));
     ACall (Lib (pubsub_Client_Topic p "orders"));
     ACall (Lib (pubsub_Topic_Config tp));
     ACall (Lib (pubsub_Client_Subscription p "orders-worker-1"));
     ACall (Lib (pubsub_Subscription_Exists sub));
     ACall (Lib (pubsub_Client_Close p))] /\
  errors_Is (fmt_Errorf_w "failed to create subscription" ErrSubscriptionExists)
            ErrSubscriptionExists = true.
Proof.
  intros HprojectID Hnew Htopic Hconfig Hhandle Hexists.
  unfold app_result, app_trace, main.testPubSubFunctions, NewPubSubClient,
    main.testPubSubFunctions_body, main.topicName, main.subscriptionName.
  apply String.eqb_neq in HprojectID. rewrite HprojectID.
  cbn. rewrite Hnew. cbn. rewrite Htopic. cbn. rewrite Hconfig. cbn.
  rewrite Hhandle. cbn. rewrite Hexists. cbn.
  destruct (app_call AL _ (Lib (pubsub_Client_Close p)) st5) as [err st6]. cbn.
  repeat split.
Qed.

Lemma testPubSubFunctions_fails_when_subscription_exists_witness :
  app_result InMemoryApp.library (main.testPubSubFunctions "gpchandson-api")
    (InMemoryApp.on InMemory.with_worker) =
    Returned (Some (fmt_Errorf_w "failed to create subscription" ErrSubscriptionExists)).
Proof.
  eapply (testPubSubFunctions_fails_when_subscription_exists InMemoryApp.library
            (InMemoryApp.on InMemory.with_worker) _ _ _ _ _ "gpchandson-api"
            (ClientPtr 2) (TopicPtr 3) (SubscriptionPtr 4)).
  - discriminate.
  - reflexivity.
  - reflexivity.
  - reflexivity.
  - reflexivity.
  - reflexivity.
Defined.

(** ** Package common *)

Ltac split_status s :=
  unfold common.String_, common.Success, common.PlatformSpecific,
    common.BasicGCPFailure, common.BoilerPlateFailure, common.FunctionalityFailure,
    common.OtherFailure;
  destruct (Z.eqb_spec s 0); [|
  destruct (Z.eqb_spec s 1); [|
  destruct (Z.eqb_spec s 2); [|
  destruct (Z.eqb_spec s 3); [|
  destruct (Z.eqb_spec s 4); [|
  destruct (Z.eqb_spec s 5)]]]]].

(** X22. String gives "Return type undefined" exactly for the integers that
    are none of the six declared statuses (below 0 or above 5); each declared
    status has a text of its own. *)
Theorem ReturnStatus_String_undefined_iff_undeclared (s : common.ReturnStatus) :
  common.String_ s = "Return type undefined"%string <-> s < 0 \/ 5 < s.
Proof.
  split_status s; subst; (split; [intros H; try discriminate H; lia | intros H; try lia]).
  reflexivity.
Qed.

(** X23. On the declared statuses String is one-to-one: two of them with
    the same text are the same status, so the text identifies the status. *)
Theorem ReturnStatus_String_injective_on_declared (a b : common.ReturnStatus) :
  0 <= a <= 5 -> 0 <= b <= 5 ->
  common.String_ a = common.String_ b -> a = b.
Proof.
  intros Ha Hb.
  split_status a; split_status b; subst; intros H;
    solve [reflexivity | discriminate H | lia].
Qed.

Lemma ReturnStatus_String_injective_on_declared_witness :
  common.BoilerPlateFailure = 3.
Proof.
  apply (ReturnStatus_String_injective_on_declared common.BoilerPlateFailure 3).
  - unfold common.BoilerPlateFailure. lia.
  - lia.
  - reflexivity.
Defined.
